(** * Playlist downloader: a shallow embedding of [main.py]

  The program provisions an FFmpeg binary, reads [playlists.json], scrapes
  each playlist page for its [ytInitialData] blob and hands every video to
  yt-dlp.  The embedding keeps the control flow of the Python source:
  exceptions are a result type, the file system and the console are an
  explicit world that is threaded through every call, and the third-party
  libraries (requests, BeautifulSoup, json, zipfile, yt-dlp) are the fields
  of a record of external collaborators. *)

From Stdlib Require Import String Ascii List ZArith Bool Arith Lia.

#[local] Set Warnings "-register-all".

Import ListNotations.
Open Scope string_scope.

(** ** Python values *)

Module PyValue.

(** A Python float as [json.loads] can produce it: a dyadic number [m * 2^e]
    (both zeros have [m = 0]), an infinity or a NaN. *)
Inductive pyfloat :=
| FNaN
| FInf (negative : bool)
| FDyadic (m e : Z).

(** What [json.loads] returns: [None], [bool], [int], [float], [str],
    [list] and [dict].  A dict keeps its insertion order, so it is an
    association list; lookups take the first binding of a key. *)
Inductive json :=
| JNull
| JBool (b : bool)
| JInt (z : Z)
| JFloat (f : pyfloat)
| JStr (s : string)
| JArr (items : list json)
| JObj (members : list (string * json)).

Fixpoint assoc {A : Type} (k : string) (l : list (string * A)) : option A :=
  match l with
  | [] => None
  | (k', v) :: l' => if String.eqb k k' then Some v else assoc k l'
  end.

(** [bool(v)]: the truth value Python gives to [v] in [if v:]. *)
Definition truthy (v : json) : bool :=
  match v with
  | JNull => false
  | JBool b => b
  | JInt z => negb (Z.eqb z 0)
  | JFloat FNaN => true
  | JFloat (FInf _) => true
  | JFloat (FDyadic m _) => negb (Z.eqb m 0)
  | JStr s => negb (String.eqb s "")
  | JArr items => match items with [] => false | _ => true end
  | JObj members => match members with [] => false | _ => true end
  end.

(** The name Python prints for the type of a value in its error messages. *)
Definition type_name (v : json) : string :=
  match v with
  | JNull => "NoneType"
  | JBool _ => "bool"
  | JInt _ => "int"
  | JFloat _ => "float"
  | JStr _ => "str"
  | JArr _ => "list"
  | JObj _ => "dict"
  end.

End PyValue.
Export PyValue.

(** ** Exceptions *)

Module PyExn.

Inductive exn_class :=
| BaseException
| KeyboardInterrupt
| Exception
| OSError
| FileNotFoundError
| IsADirectoryError
| NotADirectoryError
| FileExistsError
| RequestException
| HTTPError
| ValueError
| JSONDecodeError
| UnicodeDecodeError
| BadZipFile
| LookupError
| KeyError
| AttributeError
| TypeError
| DownloadError.

Definition exn_class_eq_dec (c d : exn_class) : {c = d} + {c <> d}.
Proof. decide equality. Defined.

Definition class_eqb (c d : exn_class) : bool :=
  if exn_class_eq_dec c d then true else false.

(** The direct base class of each exception class. *)
Definition base_class (c : exn_class) : option exn_class :=
  match c with
  | BaseException => None
  | KeyboardInterrupt => Some BaseException
  | Exception => Some BaseException
  | OSError => Some Exception
  | FileNotFoundError => Some OSError
  | IsADirectoryError => Some OSError
  | NotADirectoryError => Some OSError
  | FileExistsError => Some OSError
  | RequestException => Some OSError
  | HTTPError => Some RequestException
  | ValueError => Some Exception
  | JSONDecodeError => Some ValueError
  | UnicodeDecodeError => Some ValueError
  | BadZipFile => Some Exception
  | LookupError => Some Exception
  | KeyError => Some LookupError
  | AttributeError => Some Exception
  | TypeError => Some Exception
  | DownloadError => Some Exception
  end.

Fixpoint subclass_upto (n : nat) (c d : exn_class) : bool :=
  class_eqb c d ||
  match n with
  | O => false
  | S n' => match base_class c with
            | Some b => subclass_upto n' b d
            | None => false
            end
  end.

(** The class hierarchy above is at most five levels deep. *)
Definition issubclass (c d : exn_class) : bool := subclass_upto 5 c d.

Record exn := mk_exn { exn_type : exn_class; exn_msg : string }.

Definition isinstance (e : exn) (c : exn_class) : bool :=
  issubclass (exn_type e) c.

Inductive result (A : Type) :=
| Ok (a : A)
| Raise (e : exn).
Arguments Ok {A} a.
Arguments Raise {A} e.

End PyExn.
Export PyExn.

(** ** Text: substring test and the regular expression of the extractor *)

Module Text.

Definition newline : ascii := ascii_of_nat 10.

Fixpoint starts_with (p s : string) : bool :=
  match p, s with
  | EmptyString, _ => true
  | String a p', String b s' => Ascii.eqb a b && starts_with p' s'
  | String _ _, EmptyString => false
  end.

Fixpoint drop (n : nat) (s : string) : string :=
  match n, s with
  | O, _ => s
  | S n', String _ s' => drop n' s'
  | S _, EmptyString => EmptyString
  end.

(** [p in s] for Python strings. *)
Fixpoint contains (p s : string) : bool :=
  starts_with p s ||
  match s with
  | EmptyString => false
  | String _ s' => contains p s'
  end.

(** [.*?] followed by the literal [rest]: the shortest run of characters
    other than a newline after which [rest] occurs. *)
Fixpoint lazy_dots (rest s : string) : option string :=
  if starts_with rest s then Some EmptyString
  else match s with
       | EmptyString => None
       | String c s' =>
           if Ascii.eqb c newline then None
           else option_map (String c) (lazy_dots rest s')
       end.

Definition pattern_head : string := "var ytInitialData = {".
Definition pattern_tail : string := "};".

(** The pattern [var ytInitialData = ({.*?});] anchored at the start of
    [s]; the result is group 1. *)
Definition match_here (s : string) : option string :=
  if starts_with pattern_head s
  then option_map (fun body => "{" ++ body ++ "}")
                  (lazy_dots pattern_tail (drop (String.length pattern_head) s))
  else None.

(** [re.search(r'var ytInitialData = ({.*?});', s)], then [group(1)]:
    the match at the leftmost position that has one. *)
Fixpoint re_search (s : string) : option string :=
  match match_here s with
  | Some g => Some g
  | None => match s with
            | EmptyString => None
            | String _ s' => re_search s'
            end
  end.

End Text.

(** ** The file system *)

Module FileSystem.

Inductive node :=
| File (content : string)
| Dir (entries : list (string * node)).

(** The entries of a directory, in the order [os.scandir] lists them. *)
Definition dir := list (string * node).

Fixpoint assoc_set {A : Type} (k : string) (v : A) (l : list (string * A))
  : list (string * A) :=
  match l with
  | [] => [(k, v)]
  | (k', v') :: l' =>
      if String.eqb k k' then (k, v) :: l' else (k', v') :: assoc_set k v l'
  end.

Fixpoint assoc_remove {A : Type} (k : string) (l : list (string * A))
  : list (string * A) :=
  match l with
  | [] => []
  | (k', v') :: l' =>
      if String.eqb k k' then l' else (k', v') :: assoc_remove k l'
  end.

Fixpoint split_slash (s : string) : list string :=
  match s with
  | EmptyString => [EmptyString]
  | String c s' =>
      if Ascii.eqb c "/" then EmptyString :: split_slash s'
      else match split_slash s' with
           | [] => [String c EmptyString]
           | h :: t => String c h :: t
           end
  end.

(** The names a path walks through.  Paths are taken from the working
    directory, which is the root of the modelled tree; empty and [.]
    components are dropped. *)
Definition components (path : string) : list string :=
  filter (fun c => negb (String.eqb c "" || String.eqb c "."))
         (split_slash path).

Definition ends_with_slash (s : string) : bool :=
  match rev (list_ascii_of_string s) with
  | c :: _ => Ascii.eqb c "/"
  | [] => false
  end.

(** [os.path.join(a, b)] of [posixpath]. *)
Definition path_join (a b : string) : string :=
  if Text.starts_with "/" b then b
  else if String.eqb a "" || ends_with_slash a then a ++ b
  else a ++ "/" ++ b.

Fixpoint lookup (p : list string) (d : dir) : option node :=
  match p with
  | [] => Some (Dir d)
  | name :: p' =>
      match assoc name d with
      | Some (Dir sub) => lookup p' sub
      | Some (File c) => match p' with [] => Some (File c) | _ => None end
      | None => None
      end
  end.

(** A name on the way to the end of the path is a regular file: the path
    cannot be walked, which the system reports as "not a directory" rather
    than "no such file". *)
Fixpoint blocked (p : list string) (d : dir) : bool :=
  match p with
  | [] => false
  | name :: p' =>
      match assoc name d with
      | Some (File _) => match p' with [] => false | _ :: _ => true end
      | Some (Dir sub) => blocked p' sub
      | None => false
      end
  end.

Inductive kind := KFile | KDir.

Definition kind_of (n : node) : kind :=
  match n with File _ => KFile | Dir _ => KDir end.

Definition kind_at (p : list string) (d : dir) : option kind :=
  option_map kind_of (lookup p d).

(** What a path names, if anything; the empty path names nothing. *)
Definition resolve (path : string) (d : dir) : option node :=
  if String.eqb path "" then None else lookup (components path) d.

(** [os.path.exists(path)] *)
Definition path_exists (path : string) (d : dir) : bool :=
  match resolve path d with Some _ => true | None => false end.

(** [os.makedirs]: create the directory and every missing ancestor; fails
    when a name on the way is a regular file. *)
Fixpoint makedirs (p : list string) (d : dir) : option dir :=
  match p with
  | [] => Some d
  | name :: p' =>
      match assoc name d with
      | None =>
          option_map (fun sub => (d ++ [(name, Dir sub)])%list) (makedirs p' [])
      | Some (Dir sub) =>
          option_map (fun sub' => assoc_set name (Dir sub') d)
                     (makedirs p' sub)
      | Some (File _) => None
      end
  end.

(** [open(path, "wb")] followed by the writes: the parent directory must
    exist and the target must not be a directory. *)
Fixpoint write_file (p : list string) (content : string) (d : dir)
  : option dir :=
  match p with
  | [] => None
  | name :: p' =>
      match p' with
      | [] =>
          match assoc name d with
          | Some (Dir _) => None
          | Some (File _) => Some (assoc_set name (File content) d)
          | None => Some (d ++ [(name, File content)])%list
          end
      | _ :: _ =>
          match assoc name d with
          | Some (Dir sub) =>
              option_map (fun sub' => assoc_set name (Dir sub') d)
                         (write_file p' content sub)
          | _ => None
          end
      end
  end.

(** [os.remove(path)]: the target must be a regular file. *)
Fixpoint remove (p : list string) (d : dir) : option dir :=
  match p with
  | [] => None
  | name :: p' =>
      match p' with
      | [] =>
          match assoc name d with
          | Some (File _) => Some (assoc_remove name d)
          | _ => None
          end
      | _ :: _ =>
          match assoc name d with
          | Some (Dir sub) =>
              option_map (fun sub' => assoc_set name (Dir sub') d)
                         (remove p' sub)
          | _ => None
          end
      end
  end.

Definition file_names (d : dir) : list string :=
  map fst (filter (fun e => match snd e with File _ => true | Dir _ => false end) d).

Definition dir_names (d : dir) : list string :=
  map fst (filter (fun e => match snd e with File _ => false | Dir _ => true end) d).

(** [os.walk(top)], top-down: the triple of a directory comes before the
    triples of its subdirectories, which are visited in listing order. *)
Fixpoint walk_node (root : string) (n : node)
  : list (string * list string * list string) :=
  match n with
  | File _ => []
  | Dir d =>
      (root, dir_names d, file_names d) ::
      (fix walk_entries (l : list (string * node)) :=
         match l with
         | [] => []
         | (name, child) :: l' =>
             (walk_node (path_join root name) child ++ walk_entries l')%list
         end) d
  end.

Definition walk (top : string) (d : dir)
  : list (string * list string * list string) :=
  match resolve top d with
  | Some n => walk_node top n
  | None => []
  end.

End FileSystem.
Export FileSystem.

(** ** The world and the external collaborators *)

(** What the program reads of a [requests.Response]. *)
Record response := mk_response { status_code : Z; body : string }.

Record postprocessor := mk_postprocessor
  { key : string; preferredcodec : string; preferredquality : string }.

(** The option dictionary handed to [yt_dlp.YoutubeDL]; a key the program
    leaves out is [None] (or the empty list). *)
Record ydl_opts := mk_ydl_opts
  { format : string;
    outtmpl : string;
    postprocessors : list postprocessor;
    merge_output_format : option string;
    ffmpeg_location : string;
    quiet : bool }.

(** Everything the program does to the outside, in the order it does it. *)
Inductive event :=
| Print (line : string)
| HttpGet (url : json)
| OpenRead (path : string)
| OpenWrite (path : string)
| ExtractAll (archive target : string)
| Remove (path : string)
| MakeDirs (path : string)
| Download (opts : ydl_opts) (link : string).

Record world := mk_world { fs : dir; trace : list event }.

Inductive zip_member :=
| ZFile (name content : string)
| ZDir (name : string).

(** The outcomes of decoding: a value, input that is text but not JSON
    ([JSONDecodeError]), or bytes that are not text in the first place
    ([UnicodeDecodeError]). *)
Inductive decoded :=
| Decoded (value : json)
| DecodeError (msg : string)
| Undecodable (msg : string).

(** The third-party code.  The network and the downloader see the history of
    the run, so two requests for one address may be answered differently. *)
Record Externals := mk_externals
  { (* requests.get(url): the response, or the exception it raises *)
    requests_get : list event -> json -> result response;
    (* BeautifulSoup(text, 'html.parser').find_all('script'), the .string of
       each tag *)
    script_strings : string -> list (option string);
    (* json.loads of a string, and json.load of a file opened as text: that
       call reads the file, so content that is not text shows up here, as
       Undecodable; for a string the outcome is a value or DecodeError *)
    json_loads : string -> decoded;
    (* zipfile.ZipFile(file): the members, or None for a bad archive *)
    zip_members : string -> option (list zip_member);
    (* YoutubeDL(opts).download([link]): the outcome and what it leaves on
       disk *)
    ydl_download : list event -> ydl_opts -> string -> dir -> result unit * dir;
    (* str() of a value that is not a string *)
    py_repr : json -> string }.

(** ** State and exceptions *)

Definition M (A : Type) : Type := world -> result A * world.

Definition ret {A : Type} (a : A) : M A := fun w => (Ok a, w).

Definition raise {A : Type} (c : exn_class) (msg : string) : M A :=
  fun w => (Raise (mk_exn c msg), w).

Definition bind {A B : Type} (m : M A) (k : A -> M B) : M B :=
  fun w => match m w with
           | (Ok a, w') => k a w'
           | (Raise e, w') => (Raise e, w')
           end.

Definition lift {A : Type} (r : result A) : M A := fun w => (r, w).

Definition rbind {A B : Type} (r : result A) (k : A -> result B) : result B :=
  match r with
  | Ok a => k a
  | Raise e => Raise e
  end.

Declare Scope py_scope.
Delimit Scope py_scope with py.
Notation "x <- m ;; k" := (bind m (fun x => k))
  (at level 61, m at next level, right associativity) : py_scope.
Notation "m ;; k" := (bind m (fun _ => k))
  (at level 61, right associativity) : py_scope.
Notation "x <~ r ;; k" := (rbind r (fun x => k))
  (at level 61, r at next level, right associativity) : py_scope.
Open Scope py_scope.

(** [try: body except C1 as e: h1 except C2 as e: h2]: the first clause whose
    class the exception is an instance of handles it; with none, it
    propagates. *)
Definition try_except {A : Type} (body : M A)
  (handlers : list (exn_class * (exn -> M A))) : M A :=
  fun w => match body w with
           | (Ok a, w') => (Ok a, w')
           | (Raise e, w') =>
               match find (fun h => isinstance e (fst h)) handlers with
               | Some h => snd h e w'
               | None => (Raise e, w')
               end
           end.

Definition emit (ev : event) : M unit :=
  fun w => (Ok tt, mk_world (fs w) (trace w ++ [ev])).

Definition print (line : string) : M unit := emit (Print line).

Definition os_path_exists (path : string) : M bool :=
  fun w => (Ok (path_exists path (fs w)), w).

Definition os_makedirs (path : string) : M unit :=
  emit (MakeDirs path) ;;
  fun w =>
    match resolve path (fs w) with
    | Some _ => (Raise (mk_exn FileExistsError path), w)
    | None =>
        if String.eqb path "" then (Raise (mk_exn FileNotFoundError path), w)
        else match makedirs (components path) (fs w) with
             | Some d => (Ok tt, mk_world d (trace w))
             | None => (Raise (mk_exn NotADirectoryError path), w)
             end
    end.

(** What the system reports for a path that names nothing:
    [NotADirectoryError] when a regular file stands in the way,
    [FileNotFoundError] otherwise. *)
Definition missing_error (path : string) (d : dir) : exn :=
  if blocked (components path) d
  then mk_exn NotADirectoryError path
  else mk_exn FileNotFoundError path.

(** [with open(path, 'r') as file]: the content of the file, which is read
    and decoded by whoever uses the file. *)
Definition open_read (path : string) : M string :=
  emit (OpenRead path) ;;
  fun w =>
    match resolve path (fs w) with
    | Some (File c) => (Ok c, w)
    | Some (Dir _) => (Raise (mk_exn IsADirectoryError path), w)
    | None => (Raise (missing_error path (fs w)), w)
    end.

(** [with open(path, 'wb') as file] and the writes of [content]. *)
Definition open_write (path content : string) : M unit :=
  emit (OpenWrite path) ;;
  fun w =>
    match write_file (components path) content (fs w) with
    | Some d => (Ok tt, mk_world d (trace w))
    | None =>
        match resolve path (fs w) with
        | Some _ => (Raise (mk_exn IsADirectoryError path), w)
        | None => (Raise (missing_error path (fs w)), w)
        end
    end.

Definition os_remove (path : string) : M unit :=
  emit (Remove path) ;;
  fun w =>
    match remove (components path) (fs w) with
    | Some d => (Ok tt, mk_world d (trace w))
    | None =>
        match resolve path (fs w) with
        | Some _ => (Raise (mk_exn IsADirectoryError path), w)
        | None => (Raise (missing_error path (fs w)), w)
        end
    end.

(** The names of an archive member that [extractall] keeps: empty, [.] and
    [..] parts are dropped. *)
Definition member_components (name : string) : list string :=
  filter (fun c => negb (String.eqb c "..")) (components name).

Definition extract_member (target : list string) (m : zip_member) (d : dir)
  : option dir :=
  match m with
  | ZDir name => makedirs (target ++ member_components name) d
  | ZFile name content =>
      let p := (target ++ member_components name)%list in
      match makedirs (removelast p) d with
      | Some d' => write_file p content d'
      | None => None
      end
  end.

Fixpoint extract_members (target : list string) (ms : list zip_member)
  (d : dir) : dir * bool :=
  match ms with
  | [] => (d, true)
  | m :: ms' =>
      match extract_member target m d with
      | Some d' => extract_members target ms' d'
      | None => (d, false)
      end
  end.

(** ** Dictionary and sequence access *)

(** [v.get(key, default)] *)
Definition py_get (v : json) (k : string) (default : json) : result json :=
  match v with
  | JObj members =>
      Ok (match assoc k members with Some x => x | None => default end)
  | _ =>
      Raise (mk_exn AttributeError
               ("'" ++ type_name v ++ "' object has no attribute 'get'"))
  end.

(** [v[key]] for a string key *)
Definition py_getitem (v : json) (k : string) : result json :=
  match v with
  | JObj members =>
      match assoc k members with
      | Some x => Ok x
      | None => Raise (mk_exn KeyError ("'" ++ k ++ "'"))
      end
  | JArr _ =>
      Raise (mk_exn TypeError "list indices must be integers or slices, not str")
  | JStr _ =>
      Raise (mk_exn TypeError "string indices must be integers, not 'str'")
  | _ =>
      Raise (mk_exn TypeError
               ("'" ++ type_name v ++ "' object is not subscriptable"))
  end.

(** The elements [for x in v] goes through: the items of a list, the keys of
    a dict, the characters of a string. *)
Definition py_iter (v : json) : result (list json) :=
  match v with
  | JArr items => Ok items
  | JObj members => Ok (map (fun m => JStr (fst m)) members)
  | JStr s =>
      Ok (map (fun c => JStr (String c EmptyString)) (list_ascii_of_string s))
  | _ =>
      Raise (mk_exn TypeError
               ("'" ++ type_name v ++ "' object is not iterable"))
  end.

(** The dictionary [{"title": title, "link": link}] of the extractor. *)
Record VideoEntry := mk_video { title : json; link : string }.

Definition marker : string := "ytInitialData".
Definition watch_url : string := "https://www.youtube.com/watch?v=".
Definition ffmpeg_url : string :=
  "https://github.com/BtbN/FFmpeg-Builds/releases/download/latest/ffmpeg-master-latest-win64-lgpl.zip".
Definition ffmpeg_zip : string := "ffmpeg.zip".

(** The loop over the script tags: the first tag whose string holds the
    marker and in which the pattern matches gives the blob. *)
Fixpoint find_playlist_data (script_tags : list (option string))
  : option string :=
  match script_tags with
  | [] => None
  | tag :: rest =>
      match tag with
      | Some s =>
          if negb (String.eqb s "") && Text.contains marker s
          then match Text.re_search s with
               | Some g => Some g
               | None => find_playlist_data rest
               end
          else find_playlist_data rest
      | None => find_playlist_data rest
      end
  end.

(** The chain of [.get] calls down to the list of playlist items. *)
Definition playlist_items_of (data : json) : result json :=
  c1 <~ py_get data "contents" (JObj []) ;;
  c2 <~ py_get c1 "twoColumnWatchNextResults" (JObj []) ;;
  c3 <~ py_get c2 "playlist" (JObj []) ;;
  c4 <~ py_get c3 "playlist" (JObj []) ;;
  py_get c4 "contents" (JArr []).

Section Program.

Variable X : Externals.

(** [str(v)], as an f-string formats a value. *)
Definition format_value (v : json) : string :=
  match v with
  | JStr s => s
  | _ => py_repr X v
  end.

Definition http_get (url : json) : M response :=
  fun w =>
    (requests_get X (trace w) url, mk_world (fs w) (trace w ++ [HttpGet url])).

(** [response.raise_for_status()] *)
Definition raise_for_status (r : response) : M unit :=
  if (400 <=? status_code r)%Z && (status_code r <? 600)%Z
  then raise HTTPError "HTTP error status"
  else ret tt.

Definition json_load (text : string) : M json :=
  match json_loads X text with
  | Decoded v => ret v
  | DecodeError msg => raise JSONDecodeError msg
  | Undecodable msg => raise UnicodeDecodeError msg
  end.

(** [with zipfile.ZipFile(archive, "r") as zip_ref:
      zip_ref.extractall(target)] *)
Definition zip_extractall (archive target : string) : M unit :=
  emit (ExtractAll archive target) ;;
  fun w =>
    match resolve archive (fs w) with
    | Some (File c) =>
        match zip_members X c with
        | Some ms =>
            let (d, ok) := extract_members (components target) ms (fs w) in
            if ok then (Ok tt, mk_world d (trace w))
            else (Raise (mk_exn OSError target), mk_world d (trace w))
        | None => (Raise (mk_exn BadZipFile "File is not a zip file"), w)
        end
    | Some (Dir _) => (Raise (mk_exn IsADirectoryError archive), w)
    | None => (Raise (missing_error archive (fs w)), w)
    end.

Definition os_walk (top : string) : M (list (string * list string * list string)) :=
  fun w => (Ok (walk top (fs w)), w).

Definition has_name (n : string) (names : list string) : bool :=
  existsb (String.eqb n) names.

(** [download_ffmpeg(ffmpeg_folder)] *)
Definition download_ffmpeg (ffmpeg_folder : string) : M (option string) :=
  let ffmpeg_exe_path := path_join ffmpeg_folder "ffmpeg.exe" in
  present <- os_path_exists ffmpeg_exe_path ;;
  if present then
    print "FFmpeg is already downloaded and available." ;;
    ret (Some ffmpeg_folder)
  else
    print "Downloading FFmpeg..." ;;
    response <- http_get (JStr ffmpeg_url) ;;
    open_write ffmpeg_zip (body response) ;;
    print "Extracting FFmpeg..." ;;
    zip_extractall ffmpeg_zip ffmpeg_folder ;;
    os_remove ffmpeg_zip ;;
    triples <- os_walk ffmpeg_folder ;;
    match find (fun t => has_name "ffmpeg.exe" (snd t) || has_name "ffmpeg" (snd t))
               triples with
    | Some (root, _, _) =>
        print "FFmpeg setup completed." ;;
        ret (Some root)
    | None =>
        print "FFmpeg binary not found after extraction!" ;;
        ret None
    end.

(** [read_json_file(file_name)] *)
Definition read_json_file (file_name : string) : M json :=
  try_except
    (text <- open_read file_name ;;
     json_load text)
    [ (FileNotFoundError,
       fun e => print ("File " ++ file_name ++ " not found.") ;;
                ret (JArr []));
      (JSONDecodeError,
       fun e => print ("Error decoding JSON file " ++ file_name ++ ": "
                       ++ exn_msg e) ;;
                ret (JArr [])) ].

(** The body of the loop over the playlist items: the entry an item
    contributes, if any. *)
Definition video_of_item (item : json) : result (option VideoEntry) :=
  video_renderer <~ py_get item "playlistPanelVideoRenderer" (JObj []) ;;
  title_obj <~ py_get video_renderer "title" (JObj []) ;;
  title <~ py_get title_obj "simpleText" (JStr "No Title") ;;
  endpoint <~ py_get video_renderer "navigationEndpoint" (JObj []) ;;
  watch <~ py_get endpoint "watchEndpoint" (JObj []) ;;
  video_id <~ py_get watch "videoId" (JStr "") ;;
  let link := if truthy video_id
              then Some (watch_url ++ format_value video_id)
              else None in
  match link with
  | Some l => if negb (String.eqb l "")
              then Ok (Some (mk_video title l))
              else Ok None
  | None => Ok None
  end.

Fixpoint collect_videos (items : list json) (videos : list VideoEntry)
  : result (list VideoEntry) :=
  match items with
  | [] => Ok videos
  | item :: rest =>
      match video_of_item item with
      | Ok (Some v) => collect_videos rest (videos ++ [v])
      | Ok None => collect_videos rest videos
      | Raise e => Raise e
      end
  end.

(** [extract_playlist_links(url)] *)
Definition extract_playlist_links (url : json) : M (list VideoEntry) :=
  try_except
    (response <- http_get url ;;
     raise_for_status response ;;
     let script_tags := script_strings X (body response) in
     let playlist_data := find_playlist_data script_tags in
     match playlist_data with
     | Some blob =>
         if String.eqb blob "" then
           print "No playlist data found." ;;
           ret []
         else
           data <- json_load blob ;;
           playlist_items <- lift (playlist_items_of data) ;;
           items <- lift (py_iter playlist_items) ;;
           lift (collect_videos items [])
     | None =>
         print "No playlist data found." ;;
         ret []
     end)
    [ (RequestException,
       fun e => print ("Error fetching the webpage: " ++ exn_msg e) ;;
                ret []);
      (JSONDecodeError,
       fun e => print ("Error decoding JSON data: " ++ exn_msg e) ;;
                ret []) ].

(** [with yt_dlp.YoutubeDL(ydl_opts) as ydl: ydl.download([link])] *)
Definition youtube_dl (opts : ydl_opts) (link : string) : M unit :=
  fun w =>
    let (r, d) := ydl_download X (trace w) opts link (fs w) in
    (r, mk_world d (trace w ++ [Download opts link])).

Definition audio_opts (download_folder ffmpeg_path title : string) : ydl_opts :=
  {| format := "bestaudio/best";
     outtmpl := path_join download_folder (title ++ ".%(ext)s");
     postprocessors :=
       [ {| key := "FFmpegExtractAudio";
            preferredcodec := "mp3";
            preferredquality := "192" |} ];
     merge_output_format := None;
     ffmpeg_location := ffmpeg_path;
     quiet := false |}.

Definition video_opts (download_folder ffmpeg_path title : string) : ydl_opts :=
  {| format := "bestvideo+bestaudio/best";
     outtmpl := path_join download_folder (title ++ ".%(ext)s");
     postprocessors := [];
     merge_output_format := Some "mp4";
     ffmpeg_location := ffmpeg_path;
     quiet := false |}.

Fixpoint download_audio_loop (videos : list VideoEntry)
  (ffmpeg_path download_folder : string) : M unit :=
  match videos with
  | [] => ret tt
  | video :: rest =>
      let title := format_value (title video) in
      let link := link video in
      print ("Downloading audio: " ++ title ++ " from " ++ link) ;;
      try_except
        (youtube_dl (audio_opts download_folder ffmpeg_path title) link ;;
         print ("Downloaded audio: " ++ title))
        [ (Exception,
           fun e => print ("Error downloading audio " ++ title ++ ": "
                           ++ exn_msg e)) ] ;;
      download_audio_loop rest ffmpeg_path download_folder
  end.

(** [download_audio(videos, ffmpeg_path, download_folder)] *)
Definition download_audio (videos : list VideoEntry)
  (ffmpeg_path download_folder : string) : M unit :=
  present <- os_path_exists download_folder ;;
  (if present then ret tt else os_makedirs download_folder) ;;
  download_audio_loop videos ffmpeg_path download_folder.

Fixpoint download_video_loop (videos : list VideoEntry)
  (ffmpeg_path download_folder : string) : M unit :=
  match videos with
  | [] => ret tt
  | video :: rest =>
      let title := format_value (title video) in
      let link := link video in
      print ("Downloading video: " ++ title ++ " from " ++ link) ;;
      try_except
        (youtube_dl (video_opts download_folder ffmpeg_path title) link ;;
         print ("Downloaded video: " ++ title))
        [ (Exception,
           fun e => print ("Error downloading video " ++ title ++ ": "
                           ++ exn_msg e)) ] ;;
      download_video_loop rest ffmpeg_path download_folder
  end.

(** [download_video(videos, ffmpeg_path, download_folder)] *)
Definition download_video (videos : list VideoEntry)
  (ffmpeg_path download_folder : string) : M unit :=
  present <- os_path_exists download_folder ;;
  (if present then ret tt else os_makedirs download_folder) ;;
  download_video_loop videos ffmpeg_path download_folder.

(** The body of the driver's loop over the configured playlists. *)
Definition process_playlist (ffmpeg_path : string) (playlist : json) : M unit :=
  url <- lift (py_getitem playlist "link") ;;
  with_video <- lift (py_get playlist "with_video" (JBool false)) ;;
  print ("Processing playlist: " ++ format_value url ++ " | With video: "
         ++ format_value with_video) ;;
  videos <- extract_playlist_links url ;;
  if truthy with_video
  then download_video videos ffmpeg_path "videos"
  else download_audio videos ffmpeg_path "music".

Fixpoint process_playlists (ffmpeg_path : string) (playlists : list json)
  : M unit :=
  match playlists with
  | [] => ret tt
  | playlist :: rest =>
      process_playlist ffmpeg_path playlist ;;
      process_playlists ffmpeg_path rest
  end.

(** The module-level code. *)
Definition main : M unit :=
  ffmpeg_path <- download_ffmpeg "ffmpeg_bin" ;;
  match ffmpeg_path with
  | Some p =>
      if negb (String.eqb p "") then
        playlist_data <- read_json_file "playlists.json" ;;
        playlists <- lift (py_iter playlist_data) ;;
        process_playlists p playlists
      else print "Failed to set up FFmpeg."
  | None => print "Failed to set up FFmpeg."
  end.

End Program.

(** ** Reading the scraped data the way the specification describes it *)

(** The member [k] of an object; nothing for a missing key or a value that
    is not an object. *)
Definition field (k : string) (v : json) : option json :=
  match v with
  | JObj members => assoc k members
  | _ => None
  end.

Fixpoint follow (ks : list string) (v : json) : option json :=
  match ks with
  | [] => Some v
  | k :: ks' => match field k v with
                | Some v' => follow ks' v'
                | None => None
                end
  end.

Definition items_path : list string :=
  ["contents"; "twoColumnWatchNextResults"; "playlist"; "playlist"; "contents"].
Definition id_path : list string :=
  ["playlistPanelVideoRenderer"; "navigationEndpoint"; "watchEndpoint"; "videoId"].
Definition title_path : list string :=
  ["playlistPanelVideoRenderer"; "title"; "simpleText"].

(** Some key of the path is missing from the object the navigation has
    reached. *)
Fixpoint key_missing (ks : list string) (v : json) : Prop :=
  match ks with
  | [] => False
  | k :: ks' =>
      match v with
      | JObj members =>
          match assoc k members with
          | Some v' => key_missing ks' v'
          | None => True
          end
      | _ => False
      end
  end.

Definition is_str (v : json) : bool :=
  match v with JStr _ => true | _ => false end.

(** Along the path every value that is present is an object, and the leaf,
    when present, is a string. *)
Fixpoint well_typed (ks : list string) (v : json) : bool :=
  match ks with
  | [] => is_str v
  | k :: ks' =>
      match v with
      | JObj members =>
          match assoc k members with
          | Some v' => well_typed ks' v'
          | None => true
          end
      | _ => false
      end
  end.

(** A well-formed playlist item record. *)
Definition wf_item (item : json) : bool :=
  well_typed id_path item && well_typed title_path item.

Definition record_id (item : json) : option string :=
  match follow id_path item with
  | Some (JStr s) => Some s
  | _ => None
  end.

Definition record_title (item : json) : option string :=
  match follow title_path item with
  | Some (JStr s) => Some s
  | _ => None
  end.

(** The record has a video identifier and it is not empty. *)
Definition has_id (item : json) : bool :=
  match record_id item with
  | Some s => negb (String.eqb s "")
  | None => false
  end.

(** The entry the specification asks for a record that has an identifier. *)
Definition entry_of (item : json) : VideoEntry :=
  {| title := JStr (match record_title item with
                    | Some t => t
                    | None => "No Title"
                    end);
     link := watch_url ++ match record_id item with
                          | Some s => s
                          | None => ""
                          end |}.

Definition status_is_error (r : response) : bool :=
  (400 <=? status_code r)%Z && (status_code r <? 600)%Z.

(** ** Stand-ins for the external collaborators

    A page server, an HTML parser, a JSON decoder, an archive reader and a
    downloader given by finite tables, for running the program on concrete
    inputs. *)

Module Fake.

Definition repr (v : json) : string :=
  match v with
  | JNull => "None"
  | JBool true => "True"
  | JBool false => "False"
  | _ => "<object>"
  end.

Definition externals
  (pages : list (string * response))
  (soups : list (string * list (option string)))
  (documents : list (string * json))
  (archives : list (string * list zip_member))
  (broken_links : list string) : Externals :=
  {| requests_get := fun _ url =>
       match url with
       | JStr u =>
           match assoc u pages with
           | Some r => Ok r
           | None => Raise (mk_exn RequestException "connection refused")
           end
       | _ => Raise (mk_exn RequestException "invalid URL")
       end;
     script_strings := fun text =>
       match assoc text soups with
       | Some tags => tags
       | None => []
       end;
     json_loads := fun text =>
       match assoc text documents with
       | Some v => Decoded v
       | None =>
           if Text.contains (String (ascii_of_nat 255) EmptyString) text
           then Undecodable "invalid start byte"
           else DecodeError "Expecting value"
       end;
     zip_members := fun content => assoc content archives;
     ydl_download := fun _ _ link d =>
       if existsb (String.eqb link) broken_links
       then (Raise (mk_exn DownloadError "video unavailable"), d)
       else (Ok tt, d);
     py_repr := repr |}.

Definition dq : string := String (ascii_of_nat 34) EmptyString.
Definition q (s : string) : string := dq ++ s ++ dq.

(** One playlist item as the page writes it. *)
Definition item_text (title_member id : string) : string :=
  "{" ++ q "playlistPanelVideoRenderer" ++ ":{" ++ title_member
      ++ q "navigationEndpoint" ++ ":{" ++ q "watchEndpoint" ++ ":{"
      ++ q "videoId" ++ ":" ++ q id ++ "}}}}".

Definition title_text (t : string) : string :=
  q "title" ++ ":{" ++ q "simpleText" ++ ":" ++ q t ++ "},".

Definition item_value (title_members : list (string * json)) (id : string)
  : json :=
  JObj [("playlistPanelVideoRenderer",
         JObj (title_members ++
               [("navigationEndpoint",
                 JObj [("watchEndpoint", JObj [("videoId", JStr id)])])]))].

Definition title_value (t : string) : list (string * json) :=
  [("title", JObj [("simpleText", JStr t)])].

(** A blob with three items: a titled one, one whose identifier is empty
    and an untitled one. *)
Definition blob_text : string :=
  "{" ++ q "contents" ++ ":{" ++ q "twoColumnWatchNextResults" ++ ":{"
      ++ q "playlist" ++ ":{" ++ q "playlist" ++ ":{" ++ q "contents" ++ ":["
      ++ item_text (title_text "Song A") "abc123" ++ ","
      ++ item_text (title_text "Song B") "" ++ ","
      ++ item_text "" "xyz789"
      ++ "]}}}}}".

Definition blob_items : list json :=
  [ item_value (title_value "Song A") "abc123";
    item_value (title_value "Song B") "";
    item_value [] "xyz789" ].

Definition blob_value : json :=
  JObj [("contents",
         JObj [("twoColumnWatchNextResults",
                JObj [("playlist",
                       JObj [("playlist",
                              JObj [("contents", JArr blob_items)])])])])].

Definition page_url : string := "https://x/playlist1".
Definition page_html : string := "<html><script>...</script></html>".
Definition blob_script : string := "var ytInitialData = " ++ blob_text ++ ";".

(** A page whose only script assigns the blob. *)
Definition page_world : Externals :=
  externals [(page_url, mk_response 200 page_html)]
            [(page_html, [None; Some "window.ytcfg = {};"; Some blob_script])]
            [(blob_text, blob_value)]
            []
            [].

(** A page where a script that merely mentions the marker comes before the
    script that assigns the blob. *)
Definition mention_script : string := "if (window.ytInitialData) { init(); }".

Definition two_script_world : Externals :=
  externals [(page_url, mk_response 200 page_html)]
            [(page_html, [Some mention_script; Some blob_script])]
            [(blob_text, blob_value)]
            []
            [].

Definition empty_world : world := mk_world [] [].

End Fake.

(** ** Vocabulary of the statements *)

Definition no_newline (s : string) : Prop :=
  ~ In Text.newline (list_ascii_of_string s).

(** [g] is group 1 of a match of the pattern in [s] whose [.*?] part is as
    short as its starting point allows. *)
Definition shortest_match (s g : string) : Prop :=
  exists pre body post,
    s = pre ++ Text.pattern_head ++ body ++ Text.pattern_tail ++ post
    /\ g = "{" ++ body ++ "}"
    /\ no_newline body
    /\ forall k, k < String.length body ->
         Text.starts_with Text.pattern_tail
           (Text.drop k (body ++ Text.pattern_tail ++ post)) = false.

Definition has_marker (tag : option string) : bool :=
  match tag with
  | Some s => Text.contains marker s
  | None => false
  end.

Definition pattern_matches (tag : option string) : bool :=
  match tag with
  | Some s => match Text.re_search s with Some _ => true | None => false end
  | None => false
  end.

(** The first script element whose text contains the marker. *)
Definition first_marker_script (tags : list (option string)) : option string :=
  match find has_marker tags with
  | Some tag => tag
  | None => None
  end.

(** The first script element whose text contains the marker and in which the
    pattern matches. *)
Definition first_matching_script (tags : list (option string))
  : option string :=
  match find (fun tag => has_marker tag && pattern_matches tag) tags with
  | Some tag => tag
  | None => None
  end.

(** The ways the specification lets an extraction come to nothing. *)
Inductive extraction_fails (X : Externals) (url : json) (w : world) : Prop :=
| fetch_raises e :
    requests_get X (trace w) url = Raise e ->
    isinstance e RequestException = true ->
    extraction_fails X url w
| fetch_error_status r :
    requests_get X (trace w) url = Ok r ->
    status_is_error r = true ->
    extraction_fails X url w
| no_marker_script r :
    requests_get X (trace w) url = Ok r ->
    status_is_error r = false ->
    forallb (fun tag => negb (has_marker tag)) (script_strings X (body r)) = true ->
    extraction_fails X url w
| blob_not_json r blob msg :
    requests_get X (trace w) url = Ok r ->
    status_is_error r = false ->
    find_playlist_data (script_strings X (body r)) = Some blob ->
    json_loads X blob = DecodeError msg ->
    extraction_fails X url w
| path_key_missing r blob data :
    requests_get X (trace w) url = Ok r ->
    status_is_error r = false ->
    find_playlist_data (script_strings X (body r)) = Some blob ->
    json_loads X blob = Decoded data ->
    key_missing items_path data ->
    extraction_fails X url w.

(** The reading under which the blob can only come from the first script
    element that contains the marker: when the pattern does not match
    there, the extraction yields nothing. *)
Definition no_fallback_to_later_script (X : Externals) (url : json) (w : world)
  : Prop :=
  forall r s,
    requests_get X (trace w) url = Ok r ->
    status_is_error r = false ->
    first_marker_script (script_strings X (body r)) = Some s ->
    Text.re_search s = None ->
    fst (extract_playlist_links X url w) = Ok [].

Module FakePages.
Import Fake.

(** No page is reachable. *)
Definition unreachable : Externals := externals [] [] [] [] [].

(** The server answers 404. *)
Definition not_found : Externals :=
  externals [(page_url, mk_response 404 "Not Found")] [] [] [] [].

(** A page without the marker. *)
Definition plain : Externals :=
  externals [(page_url, mk_response 200 page_html)]
            [(page_html, [None; Some "console.log(1);"])]
            [] [] [].

(** The blob is there but the decoder rejects it. *)
Definition garbled : Externals :=
  externals [(page_url, mk_response 200 page_html)]
            [(page_html, [Some "var ytInitialData = {oops};"])]
            [] [] [].

(** The blob decodes to an object without the watch-next results. *)
Definition bare_text : string := "{" ++ q "contents" ++ ":{}}".
Definition bare_value : json := JObj [("contents", JObj [])].
Definition bare : Externals :=
  externals [(page_url, mk_response 200 page_html)]
            [(page_html, [Some ("var ytInitialData = " ++ bare_text ++ ";")])]
            [(bare_text, bare_value)] [] [].

End FakePages.

(** The number of requests a run has sent. *)
Fixpoint network_calls (t : list event) : nat :=
  match t with
  | [] => 0
  | HttpGet _ :: t' => S (network_calls t')
  | _ :: t' => network_calls t'
  end.

Module FakeRelease.
Import Fake.

(** The release archive keeps the binary two directories down, the way the
    FFmpeg builds are packed. *)
Definition archive_bytes : string := "PK...".
Definition archive : list zip_member :=
  [ ZDir "ffmpeg-master-latest-win64-lgpl/";
    ZFile "ffmpeg-master-latest-win64-lgpl/LICENSE.txt" "LGPL";
    ZFile "ffmpeg-master-latest-win64-lgpl/bin/ffmpeg.exe" "MZ" ].

Definition release_server : Externals :=
  externals [(ffmpeg_url, mk_response 200 archive_bytes)]
            [] []
            [(archive_bytes, archive)]
            [].

(** A working directory in which [ffmpeg_bin/ffmpeg.exe] is already there
    and nothing can be fetched. *)
Definition provisioned : world :=
  mk_world [("ffmpeg_bin", Dir [("ffmpeg.exe", File "MZ")])] [].

End FakeRelease.

(** ** Vocabulary of the statements about the fetch loops *)

(** The links handed to the downloader, in the order of the calls. *)
Fixpoint downloads (t : list event) : list string :=
  match t with
  | [] => []
  | Download _ l :: t' => l :: downloads t'
  | _ :: t' => downloads t'
  end.

(** What tells the audio loop from the video loop: the lines they print and
    the options they pass. *)
Record fetch_mode := mk_mode
  { start_line : string -> string -> string;
    opts_for : string -> ydl_opts;
    done_line : string -> string;
    error_line : string -> string -> string }.

Definition audio_mode (download_folder ffmpeg_path : string) : fetch_mode :=
  {| start_line := fun t l => "Downloading audio: " ++ t ++ " from " ++ l;
     opts_for := audio_opts download_folder ffmpeg_path;
     done_line := fun t => "Downloaded audio: " ++ t;
     error_line := fun t m => "Error downloading audio " ++ t ++ ": " ++ m |}.

Definition video_mode (download_folder ffmpeg_path : string) : fetch_mode :=
  {| start_line := fun t l => "Downloading video: " ++ t ++ " from " ++ l;
     opts_for := video_opts download_folder ffmpeg_path;
     done_line := fun t => "Downloaded video: " ++ t;
     error_line := fun t m => "Error downloading video " ++ t ++ ": " ++ m |}.

(** What one entry adds to the trace: the announcement, the call of the
    downloader, and either the completion line or the error line with the
    title and the message of the exception. *)
Definition segment (X : Externals) (mode : fetch_mode) (v : VideoEntry)
  (outcome : option exn) : list event :=
  let t := format_value X (title v) in
  [ Print (start_line mode t (link v));
    Download (opts_for mode t) (link v);
    Print match outcome with
          | None => done_line mode t
          | Some e => error_line mode t (exn_msg e)
          end ].

(** A run that takes the entries one after the other and goes on to the
    next entry whether the downloader returned or raised. *)
Inductive isolated_run (X : Externals) (mode : fetch_mode)
  : list VideoEntry -> world -> world -> Prop :=
| run_done w :
    isolated_run X mode [] w w
| run_completed v vs w d w' :
    ydl_download X
      (trace w ++ [Print (start_line mode (format_value X (title v)) (link v))])
      (opts_for mode (format_value X (title v))) (link v) (fs w)
    = (Ok tt, d) ->
    isolated_run X mode vs (mk_world d (trace w ++ segment X mode v None)) w' ->
    isolated_run X mode (v :: vs) w w'
| run_caught v vs w d e w' :
    ydl_download X
      (trace w ++ [Print (start_line mode (format_value X (title v)) (link v))])
      (opts_for mode (format_value X (title v))) (link v) (fs w)
    = (Raise e, d) ->
    isolated_run X mode vs
      (mk_world d (trace w ++ segment X mode v (Some e))) w' ->
    isolated_run X mode (v :: vs) w w'.

(** What the downloader raises derives from [Exception]. *)
Definition raises_exceptions (X : Externals) : Prop :=
  forall h o l d e,
    fst (ydl_download X h o l d) = Raise e -> isinstance e Exception = true.

(** The first two lines of both fetch functions. *)
Definition ensure_folder (download_folder : string) : M unit :=
  present <- os_path_exists download_folder ;;
  if present then ret tt else os_makedirs download_folder.

Module FakeTube.
Import Fake.

(** A downloader for which the second of three links is broken. *)
Definition flaky : Externals :=
  externals [] [] [] [] ["https://www.youtube.com/watch?v=two"].

Definition three : list VideoEntry :=
  [ mk_video (JStr "One") "https://www.youtube.com/watch?v=one";
    mk_video (JStr "Two") "https://www.youtube.com/watch?v=two";
    mk_video (JStr "Three") "https://www.youtube.com/watch?v=three" ].

End FakeTube.

(** The lines a run has printed. *)
Fixpoint printed (t : list event) : list string :=
  match t with
  | [] => []
  | Print line :: t' => line :: printed t'
  | _ :: t' => printed t'
  end.

(** ** Vocabulary of the statements about the driver *)

(** What the driver does once the provisioning has made way for the
    playlists: it reads the configuration, fetches a playlist page, makes an
    output folder or calls the downloader. *)
Definition playlist_event (ev : event) : bool :=
  match ev with
  | OpenRead _ => true
  | MakeDirs _ => true
  | Download _ _ => true
  | HttpGet (JStr u) => negb (String.eqb u ffmpeg_url)
  | HttpGet _ => true
  | _ => false
  end.

Fixpoint is_prefix (q p : list string) : bool :=
  match q, p with
  | [], _ => true
  | a :: q', b :: p' => String.eqb a b && is_prefix q' p'
  | _ :: _, [] => false
  end.

Module FakeRun.
Import Fake.

(** The configuration of the end-to-end scenario: one playlist, no
    [with_video] member. *)
Definition config_text : string :=
  "[{" ++ q "link" ++ ": " ++ q page_url ++ "}]".
Definition config_value : json := JArr [JObj [("link", JStr page_url)]].

(** A configuration whose second entry has no link. *)
Definition linkless_text : string :=
  "[{" ++ q "link" ++ ": " ++ q page_url ++ "}, {" ++ q "with_video"
       ++ ": true}]".
Definition linkless_value : json :=
  JArr [JObj [("link", JStr page_url)]; JObj [("with_video", JBool true)]].

(** A playlist of one song. *)
Definition song_text : string :=
  "{" ++ q "contents" ++ ":{" ++ q "twoColumnWatchNextResults" ++ ":{"
      ++ q "playlist" ++ ":{" ++ q "playlist" ++ ":{" ++ q "contents" ++ ":["
      ++ item_text (title_text "Song A") "abc123"
      ++ "]}}}}}".
Definition song_value : json :=
  JObj [("contents",
         JObj [("twoColumnWatchNextResults",
                JObj [("playlist",
                       JObj [("playlist",
                              JObj [("contents",
                                     JArr [item_value (title_value "Song A")
                                             "abc123"])])])])])].

Definition studio : Externals :=
  externals [ (page_url, mk_response 200 page_html);
              (ffmpeg_url, mk_response 200 FakeRelease.archive_bytes) ]
            [ (page_html, [Some ("var ytInitialData = " ++ song_text ++ ";")]) ]
            [ (config_text, config_value);
              (linkless_text, linkless_value);
              (song_text, song_value) ]
            [ (FakeRelease.archive_bytes, FakeRelease.archive) ]
            [].

(** The release archive holds no binary. *)
Definition hollow : Externals :=
  externals [ (ffmpeg_url, mk_response 200 FakeRelease.archive_bytes) ]
            [] []
            [ (FakeRelease.archive_bytes, [ZFile "README.txt" "nothing here"]) ]
            [].

Definition configured : world :=
  mk_world [("playlists.json", File config_text)] [].

Definition misconfigured : world :=
  mk_world [("playlists.json", File "[{oops")] [].

Definition linkless : world :=
  mk_world [("playlists.json", File linkless_text)] [].

End FakeRun.

(** A computation that adds no playlist event to the trace. *)
Definition provisioning_only {A : Type} (m : M A) : Prop :=
  forall w, exists new,
    trace (snd (m w)) = (trace w ++ new)%list
    /\ existsb playlist_event new = false.

(** ** Vocabulary of the further statements *)

(** A computation that leaves the files alone and only prints. *)
Definition console_only {A : Type} (m : M A) : Prop :=
  forall w, exists lines,
    snd (m w) = mk_world (fs w) (trace w ++ map Print lines).

(** On the way down the path a value that is not an object stands where the
    next [.get] is called. *)
Fixpoint hits_non_object (ks : list string) (v : json) : Prop :=
  match ks with
  | [] => False
  | k :: ks' =>
      match v with
      | JObj members =>
          match assoc k members with
          | Some v' => match ks' with
                       | [] => False
                       | _ :: _ => hits_non_object ks' v'
                       end
          | None => False
          end
      | _ => True
      end
  end.

Definition is_object (v : json) : bool :=
  match v with JObj _ => true | _ => false end.

Module FakeShapes.
Import Fake.

(** Externals for a page whose blob decodes to [value]. *)
Definition serving (text : string) (value : json) : Externals :=
  externals [(page_url, mk_response 200 page_html)]
            [(page_html, [Some ("var ytInitialData = " ++ text ++ ";")])]
            [(text, value)] [] [].

(** [contents] is [null]. *)
Definition null_contents_text : string := "{" ++ q "contents" ++ ":null}".
Definition null_contents_value : json := JObj [("contents", JNull)].

Definition nest (leaf : json) : json :=
  JObj [("contents",
         JObj [("twoColumnWatchNextResults",
                JObj [("playlist",
                       JObj [("playlist", JObj [("contents", leaf)])])])])].

Definition nest_text (leaf : string) : string :=
  "{" ++ q "contents" ++ ":{" ++ q "twoColumnWatchNextResults" ++ ":{"
      ++ q "playlist" ++ ":{" ++ q "playlist" ++ ":{" ++ q "contents" ++ ":"
      ++ leaf ++ "}}}}}".

(** The playlist contents are a number. *)
Definition number_text : string := nest_text "7".
Definition number_value : json := nest (JInt 7).

(** A good item followed by an item that is a string. *)
Definition stray_text : string :=
  nest_text ("[" ++ item_text (title_text "Song A") "abc123" ++ ","
                 ++ q "oops" ++ "]").
Definition stray_items : list json :=
  [item_value (title_value "Song A") "abc123"; JStr "oops"].
Definition stray_value : json := nest (JArr stray_items).

(** Items whose identifier is present but counts as false, and one whose
    identifier is a number. *)
Definition id_item (id : json) : json :=
  JObj [("playlistPanelVideoRenderer",
         JObj [("navigationEndpoint",
                JObj [("watchEndpoint", JObj [("videoId", id)])])])].

End FakeShapes.

(** A chain of [.get] calls along a path: every call but the last has the
    default [{}], the last one has [default]. *)
Fixpoint get_path (ks : list string) (default : json) (v : json)
  : result json :=
  match ks with
  | [] => Ok v
  | k :: ks' =>
      match ks' with
      | [] => py_get v k default
      | _ :: _ => x <~ py_get v k (JObj []) ;; get_path ks' default x
      end
  end.

Module FakeFailures.
Import Fake.

(** The release address answers with a page that is no archive. *)
Definition error_page : Externals :=
  externals [(ffmpeg_url, mk_response 404 "Not Found")] [] [] [] [].

(** A downloader interrupted from the keyboard. *)
Definition interrupted : Externals :=
  {| requests_get := fun _ _ => Raise (mk_exn RequestException "offline");
     script_strings := fun _ => [];
     json_loads := fun _ => DecodeError "Expecting value";
     zip_members := fun _ => None;
     ydl_download := fun _ _ _ d => (Raise (mk_exn KeyboardInterrupt ""), d);
     py_repr := repr |}.

(** The binary is in place and the configuration is a JSON object. *)
Definition object_config_text : string :=
  "{" ++ q "link" ++ ": " ++ q page_url ++ "}".
Definition object_config_value : json := JObj [("link", JStr page_url)].

Definition object_config : Externals :=
  externals [] [] [(object_config_text, object_config_value)] [] [].

Definition ready (config : string) : world :=
  mk_world [ ("ffmpeg_bin", Dir [("ffmpeg.exe", File "MZ")]);
             ("playlists.json", File config) ] [].

Definition ready_without_config : world :=
  mk_world [("ffmpeg_bin", Dir [("ffmpeg.exe", File "MZ")])] [].

(** Both output folders are there already. *)
Definition ready_with_folders (config : string) : world :=
  mk_world [ ("ffmpeg_bin", Dir [("ffmpeg.exe", File "MZ")]);
             ("playlists.json", File config);
             ("music", Dir []);
             ("videos", Dir []) ] [].

End FakeFailures.

(** ** File trees as an operating system keeps them *)

(** A name a directory entry can have: not empty, not [.], without a
    slash. *)
Definition good_name (s : string) : bool :=
  negb (String.eqb s "") && negb (String.eqb s ".")
  && negb (Text.contains "/" s).

(** Every directory of the tree lists each name once, and every name is one
    an entry can have. *)
Fixpoint tidy_node (n : node) : Prop :=
  match n with
  | File _ => True
  | Dir entries =>
      NoDup (map fst entries)
      /\ (fix tidy_entries (l : list (string * node)) : Prop :=
            match l with
            | [] => True
            | (name, child) :: l' =>
                good_name name = true /\ tidy_node child /\ tidy_entries l'
            end) entries
  end.

Definition tidy (d : dir) : Prop := tidy_node (Dir d).

(** ** Reading the configuration where opening or decoding fails *)

(** The reading under which [read_json_file] answers with the empty list
    for every path at which nothing exists and for every file whose content
    is not valid JSON. *)
Definition handles_absent_and_invalid (X : Externals) (file_name : string)
  (w : world) : Prop :=
  path_exists file_name (fs w) = false
  \/ (exists content,
        resolve file_name (fs w) = Some (File content)
        /\ forall v, json_loads X content <> Decoded v) ->
  fst (read_json_file X file_name w) = Ok (JArr []).

Module FakeFiles.

(** A working directory in which [a] is a regular file, so that nothing
    exists at [a/b]. *)
Definition file_in_the_way : world := mk_world [("a", File "x")] [].

(** A configuration file that starts with a byte no text encoding of JSON
    starts with. *)
Definition binary_content : string := String (ascii_of_nat 255) "[]".
Definition binary_config : world :=
  mk_world [("playlists.json", File binary_content)] [].

End FakeFiles.

(** * Properties *)

(** ** Text and pattern matching *)
Lemma starts_with_app p t : Text.starts_with p (p ++ t) = true.
Proof.
  induction p as [|a p IH]; cbn; [reflexivity|].
  now rewrite Ascii.eqb_refl, IH.
Qed.

Lemma starts_with_split p s :
  Text.starts_with p s = true -> s = p ++ Text.drop (String.length p) s.
Proof.
  revert s. induction p as [|a p IH]; intros s H; cbn in *; [reflexivity|].
  destruct s as [|b s]; [discriminate|].
  apply andb_prop in H. destruct H as [Hab Hps].
  apply Ascii.eqb_eq in Hab. subst b. cbn. f_equal. now apply IH.
Qed.

Lemma lazy_dots_shortest rest s body :
  Text.lazy_dots rest s = Some body ->
  exists post,
    s = body ++ rest ++ post
    /\ no_newline body
    /\ forall k, k < String.length body ->
         Text.starts_with rest (Text.drop k s) = false.
Proof.
  revert body. induction s as [|c s IH]; intros body H; cbn [Text.lazy_dots] in H.
  - destruct (Text.starts_with rest "") eqn:Hr; [|discriminate].
    injection H as <-. exists (Text.drop (String.length rest) "").
    split; [now apply starts_with_split|].
    split; [intros []|]. cbn. intros k Hk. lia.
  - destruct (Text.starts_with rest (String c s)) eqn:Hr.
    + injection H as <-. exists (Text.drop (String.length rest) (String c s)).
      split; [now apply starts_with_split|].
      split; [intros []|]. cbn. intros k Hk. lia.
    + destruct (Ascii.eqb c Text.newline) eqn:Hc; [discriminate|].
      destruct (Text.lazy_dots rest s) as [b|] eqn:Hl; [|discriminate].
      injection H as <-. destruct (IH b eq_refl) as (post & Hs & Hn & Hmin).
      exists post. split; [cbn; now rewrite <- Hs|].
      split.
      * intros [Heq|Hin]; [|now apply Hn].
        subst c. now rewrite Ascii.eqb_refl in Hc.
      * intros [|k] Hk; cbn; [exact Hr|]. apply Hmin. cbn in Hk. lia.
Qed.

Lemma match_here_shortest s g :
  Text.match_here s = Some g -> shortest_match s g.
Proof.
  unfold Text.match_here. intros H.
  destruct (Text.starts_with Text.pattern_head s) eqn:Hh; [|discriminate].
  destruct (Text.lazy_dots _ _) as [body|] eqn:Hl; [|discriminate].
  injection H as <-.
  destruct (lazy_dots_shortest _ _ _ Hl) as (post & Hs & Hn & Hmin).
  exists "", body, post. split.
  - rewrite (starts_with_split _ _ Hh) at 1. now rewrite Hs.
  - split; [reflexivity|]. split; [exact Hn|].
    intros k Hk. rewrite <- Hs. now apply Hmin.
Qed.

Lemma re_search_shortest s g :
  Text.re_search s = Some g -> shortest_match s g.
Proof.
  induction s as [|c s IH]; cbn [Text.re_search]; intros H.
  - destruct (Text.match_here "") eqn:Hm; [|discriminate].
    injection H as <-. now apply match_here_shortest.
  - destruct (Text.match_here (String c s)) eqn:Hm.
    + injection H as <-. now apply match_here_shortest.
    + destruct (IH H) as (pre & body & post & Hs & Hg & Hn & Hmin).
      exists (String c pre), body, post.
      split; [now rewrite Hs|auto].
Qed.

Lemma re_search_nonempty s g : Text.re_search s = Some g -> g <> "".
Proof.
  intros H. destruct (re_search_shortest _ _ H) as (? & ? & ? & _ & -> & _).
  discriminate.
Qed.

(** The match stops at the first [};], does not cross a line break, and
    starts at the leftmost place that has a match. *)
Example re_search_stops_early :
  Text.re_search "x; var ytInitialData = {a};{b}; var ytInitialData = {c};"
  = Some "{a}".
Proof. reflexivity. Qed.

Example re_search_skips_broken_line :
  Text.re_search
    ("var ytInitialData = {a" ++ String Text.newline "};"
     ++ "var ytInitialData = {b};")
  = Some "{b}".
Proof. reflexivity. Qed.

Example re_search_needs_assignment :
  Text.re_search "if (window.ytInitialData) { init(); }" = None.
Proof. reflexivity. Qed.

(** ** The loop over the script tags *)

Lemma find_playlist_data_nonempty tags blob :
  find_playlist_data tags = Some blob -> blob <> "".
Proof.
  induction tags as [|[s|] tags IH]; cbn [find_playlist_data]; intros H;
    [discriminate| |now apply IH].
  destruct (negb (String.eqb s "") && Text.contains marker s);
    [|now apply IH].
  destruct (Text.re_search s) eqn:Hs; [|now apply IH].
  injection H as <-. now apply re_search_nonempty with s.
Qed.

Lemma contains_empty p : p <> "" -> Text.contains p "" = false.
Proof. destruct p; [congruence|reflexivity]. Qed.

Lemma find_playlist_data_first_matching tags :
  find_playlist_data tags =
  match first_matching_script tags with
  | Some s => Text.re_search s
  | None => None
  end.
Proof.
  unfold first_matching_script.
  induction tags as [|[s|] tags IH]; cbn [find_playlist_data find];
    [reflexivity| |exact IH].
  cbn [has_marker pattern_matches andb].
  destruct (String.eqb_spec s "") as [->|Hs]; cbn [negb andb].
  - rewrite contains_empty by discriminate. exact IH.
  - destruct (Text.contains marker s); cbn [andb]; [|exact IH].
    destruct (Text.re_search s) eqn:Hr; [now rewrite Hr|exact IH].
Qed.

Lemma find_playlist_data_no_marker tags :
  forallb (fun tag => negb (has_marker tag)) tags = true ->
  find_playlist_data tags = None.
Proof.
  induction tags as [|[s|] tags IH]; cbn [find_playlist_data forallb];
    intros H; [reflexivity| |apply IH; exact H].
  apply andb_prop in H. destruct H as [Hs Hrest].
  cbn [has_marker] in Hs. apply negb_true_iff in Hs. rewrite Hs.
  rewrite andb_false_r. now apply IH.
Qed.

(** ** Navigation of the scraped data *)

Ltac split_on_hyp :=
  repeat match goal with
  | H : context [match ?x with _ => _ end] |- _ =>
      destruct x eqn:?;
      cbn [well_typed follow field py_get rbind is_str key_missing] in *;
      try discriminate; try contradiction
  end.

Lemma py_get_field v k default x :
  field k v = Some x -> py_get v k default = Ok x.
Proof.
  destruct v; cbn [field py_get]; try discriminate. now intros ->.
Qed.

Lemma playlist_items_follow data v :
  follow items_path data = Some v -> playlist_items_of data = Ok v.
Proof.
  unfold playlist_items_of, items_path. cbn [follow]. intros H.
  repeat match type of H with
  | match field ?k ?x with _ => _ end = _ =>
      let E := fresh "E" in
      destruct (field k x) eqn:E; [|discriminate H];
      rewrite (py_get_field _ _ _ _ E); cbn [rbind]
  end.
  congruence.
Qed.

Lemma playlist_items_missing data :
  key_missing items_path data -> playlist_items_of data = Ok (JArr []).
Proof.
  unfold playlist_items_of, items_path.
  cbn [key_missing py_get rbind]. intros H.
  split_on_hyp; reflexivity.
Qed.

Section Extraction.

Variable X : Externals.

Lemma video_of_item_wf item :
  wf_item item = true ->
  video_of_item X item = Ok (if has_id item then Some (entry_of item) else None).
Proof.
  unfold wf_item, video_of_item, has_id, entry_of, record_id, record_title.
  unfold id_path, title_path. cbn [well_typed follow field py_get rbind is_str].
  intros H. apply andb_prop in H. destruct H as [Hid Htitle].
  split_on_hyp;
    repeat match goal with
    | H : is_str ?j = true |- _ => destruct j; try discriminate H; clear H
    end;
    cbn [truthy format_value];
    repeat match goal with
    | |- context [String.eqb ?s ""] => is_var s; destruct s
    end;
    reflexivity.
Qed.

Lemma collect_videos_wf items : forall videos,
  forallb wf_item items = true ->
  collect_videos X items videos
  = Ok (videos ++ map entry_of (filter has_id items))%list.
Proof.
  induction items as [|item items IH]; intros videos H; cbn.
  - now rewrite app_nil_r.
  - cbn in H. apply andb_prop in H. destruct H as [Hitem Hrest].
    rewrite (video_of_item_wf item Hitem).
    destruct (has_id item); rewrite IH by exact Hrest; [|reflexivity].
    now rewrite <- app_assoc.
Qed.

(** A page that was fetched and whose blob was found and decoded is turned
    into whatever the item loop makes of the navigated data. *)
Lemma extract_on_decoded_blob url w r blob data :
  requests_get X (trace w) url = Ok r ->
  status_is_error r = false ->
  find_playlist_data (script_strings X (body r)) = Some blob ->
  json_loads X blob = Decoded data ->
  extract_playlist_links X url w
  = try_except
      (playlist_items <- lift (playlist_items_of data) ;;
       items <- lift (py_iter playlist_items) ;;
       lift (collect_videos X items []))
      [ (RequestException,
         fun e => print ("Error fetching the webpage: " ++ exn_msg e) ;;
                  ret []);
        (JSONDecodeError,
         fun e => print ("Error decoding JSON data: " ++ exn_msg e) ;;
                  ret []) ]
      (mk_world (fs w) (trace w ++ [HttpGet url])).
Proof.
  intros Hget Hstatus Hfind Hjson.
  unfold extract_playlist_links, try_except at 1, bind at 1, http_get.
  rewrite Hget. unfold bind at 1, raise_for_status.
  fold (status_is_error r). rewrite Hstatus. cbn [ret].
  rewrite Hfind.
  destruct (String.eqb_spec blob "") as [->|_];
    [now apply find_playlist_data_nonempty in Hfind|].
  unfold bind at 1, json_load. rewrite Hjson. cbn [ret].
  reflexivity.
Qed.

End Extraction.

(** ** Extraction of the playlist links *)

(** C1: on a page whose blob is well formed and holds the item records
    [items], [extract_playlist_links] returns one entry for each record that
    has a non-empty video identifier, in the order of the records; the title
    of an entry is the record's title, or "No Title" when the record has
    none; it builds no entry for a record without an identifier. *)
Theorem extract_keeps_identified_items
  (X : Externals) (url : json) (w : world) (r : response) (blob : string)
  (data : json) (items : list json) :
  requests_get X (trace w) url = Ok r ->
  status_is_error r = false ->
  find_playlist_data (script_strings X (body r)) = Some blob ->
  json_loads X blob = Decoded data ->
  follow items_path data = Some (JArr items) ->
  forallb wf_item items = true ->
  let videos := map entry_of (filter has_id items) in
  extract_playlist_links X url w
  = (Ok videos, mk_world (fs w) (trace w ++ [HttpGet url]))
  /\ length videos = length (filter has_id items)
  /\ (forall v, In v videos ->
        exists item, In item items /\ has_id item = true /\ v = entry_of item).
Proof.
  intros Hget Hstatus Hfind Hjson Hitems Hwf videos. split; [|split].
  - rewrite (extract_on_decoded_blob X url w r blob data) by assumption.
    unfold try_except, bind, lift.
    rewrite (playlist_items_follow _ _ Hitems). cbn [py_iter].
    now rewrite (collect_videos_wf X items [] Hwf).
  - apply length_map.
  - intros v Hv. apply in_map_iff in Hv. destruct Hv as (item & <- & Hin).
    apply filter_In in Hin. destruct Hin as [Hin Hid]. now exists item.
Qed.

Lemma extract_keeps_identified_items_witness :
  extract_playlist_links Fake.page_world (JStr Fake.page_url) Fake.empty_world
  = (Ok [ mk_video (JStr "Song A") "https://www.youtube.com/watch?v=abc123";
          mk_video (JStr "No Title") "https://www.youtube.com/watch?v=xyz789" ],
     mk_world [] [HttpGet (JStr Fake.page_url)]).
Proof.
  refine (proj1 (extract_keeps_identified_items
                   Fake.page_world (JStr Fake.page_url) Fake.empty_world
                   (mk_response 200 Fake.page_html) Fake.blob_text
                   Fake.blob_value Fake.blob_items _ _ _ _ _ _));
    vm_compute; reflexivity.
Defined.

(** C2: [extract_playlist_links] returns the empty list and raises nothing
    when the fetch fails, when no script element contains the marker, when
    the blob is not valid JSON, and when a key of the navigation path is
    missing from the decoded data; beyond the request, all it does is print
    diagnostics. *)
Theorem extract_degrades_to_empty (X : Externals) (url : json) (w : world) :
  extraction_fails X url w ->
  exists lines,
    extract_playlist_links X url w
    = (Ok [], mk_world (fs w) (trace w ++ HttpGet url :: map Print lines)).
Proof.
  intros [e Hget He | r Hget Hstatus | r Hget Hstatus Hnone
         | r blob msg Hget Hstatus Hfind Hjson
         | r blob data Hget Hstatus Hfind Hjson Hmissing].
  - exists ["Error fetching the webpage: " ++ exn_msg e].
    unfold extract_playlist_links, try_except, bind at 1, http_get.
    rewrite Hget. cbn [find fst snd]. rewrite He.
    cbn. now rewrite <- app_assoc.
  - eexists [_].
    unfold extract_playlist_links, try_except, bind at 1, http_get.
    rewrite Hget. unfold bind at 1, raise_for_status.
    fold (status_is_error r). rewrite Hstatus.
    cbn. now rewrite <- app_assoc.
  - exists ["No playlist data found."].
    unfold extract_playlist_links, try_except, bind at 1, http_get.
    rewrite Hget. unfold bind at 1, raise_for_status.
    fold (status_is_error r). rewrite Hstatus. cbn [ret].
    rewrite (find_playlist_data_no_marker _ Hnone).
    cbn. now rewrite <- app_assoc.
  - exists ["Error decoding JSON data: " ++ msg].
    unfold extract_playlist_links, try_except, bind at 1, http_get.
    rewrite Hget. unfold bind at 1, raise_for_status.
    fold (status_is_error r). rewrite Hstatus. cbn [ret]. rewrite Hfind.
    destruct (String.eqb_spec blob "") as [->|_];
      [now apply find_playlist_data_nonempty in Hfind|].
    unfold bind at 1, json_load. rewrite Hjson.
    cbn. now rewrite <- app_assoc.
  - exists [].
    rewrite (extract_on_decoded_blob X url w r blob data) by assumption.
    unfold try_except, bind, lift.
    now rewrite (playlist_items_missing _ Hmissing).
Qed.

Lemma extract_degrades_to_empty_witness :
  let run X := fst (extract_playlist_links X (JStr Fake.page_url)
                      Fake.empty_world) in
  run FakePages.unreachable = Ok []
  /\ run FakePages.not_found = Ok []
  /\ run FakePages.plain = Ok []
  /\ run FakePages.garbled = Ok []
  /\ run FakePages.bare = Ok [].
Proof.
  assert (empty : forall X,
             extraction_fails X (JStr Fake.page_url) Fake.empty_world ->
             fst (extract_playlist_links X (JStr Fake.page_url)
                    Fake.empty_world) = Ok []).
  { intros X H. destruct (extract_degrades_to_empty _ _ _ H) as [lines ->].
    reflexivity. }
  intros run. unfold run.
  split; [|split; [|split; [|split]]]; apply empty.
  - apply fetch_raises with (mk_exn RequestException "connection refused");
      reflexivity.
  - apply fetch_error_status with (mk_response 404 "Not Found"); reflexivity.
  - apply no_marker_script with (mk_response 200 Fake.page_html); reflexivity.
  - apply blob_not_json
      with (mk_response 200 Fake.page_html) "{oops}" "Expecting value";
      reflexivity.
  - apply path_key_missing
      with (mk_response 200 Fake.page_html) FakePages.bare_text
           FakePages.bare_value;
      first [reflexivity | exact I].
Defined.

Lemma first_matching_script_matches tags s :
  first_matching_script tags = Some s ->
  exists g, Text.re_search s = Some g.
Proof.
  unfold first_matching_script.
  destruct (find _ tags) as [tag|] eqn:Hfind; [|discriminate].
  intros ->. apply find_some in Hfind. destruct Hfind as [_ Hp].
  apply andb_prop in Hp. destruct Hp as [_ Hp]. cbn [pattern_matches] in Hp.
  destruct (Text.re_search s) as [g|]; [now exists g|discriminate].
Qed.

(** C3, as the code has it: the blob is group 1 of a non-greedy match in the
    first script element whose text contains the marker and in which the
    pattern matches; when no script element is such, the extraction prints
    its notice and returns the empty list. *)
Theorem blob_from_first_matching_script
  (X : Externals) (url : json) (w : world) (r : response) :
  requests_get X (trace w) url = Ok r ->
  status_is_error r = false ->
  let tags := script_strings X (body r) in
  (forall s, first_matching_script tags = Some s ->
     exists g, Text.re_search s = Some g
               /\ find_playlist_data tags = Some g
               /\ shortest_match s g)
  /\ (first_matching_script tags = None ->
      extract_playlist_links X url w
      = (Ok [],
         mk_world (fs w)
           (trace w ++ [HttpGet url; Print "No playlist data found."]))).
Proof.
  intros Hget Hstatus tags. split.
  - intros s Hs. destruct (first_matching_script_matches _ _ Hs) as [g Hg].
    exists g. split; [exact Hg|]. split; [|now apply re_search_shortest].
    now rewrite find_playlist_data_first_matching, Hs.
  - intros Hnone.
    unfold extract_playlist_links, try_except, bind at 1, http_get.
    rewrite Hget. unfold bind at 1, raise_for_status.
    fold (status_is_error r). rewrite Hstatus. cbn [ret].
    fold tags. rewrite find_playlist_data_first_matching, Hnone.
    cbn. now rewrite <- app_assoc.
Qed.

Lemma blob_from_first_matching_script_witness :
  exists g, Text.re_search Fake.blob_script = Some g
            /\ find_playlist_data
                 [Some Fake.mention_script; Some Fake.blob_script] = Some g
            /\ shortest_match Fake.blob_script g.
Proof.
  exact (proj1 (blob_from_first_matching_script
                  Fake.two_script_world (JStr Fake.page_url) Fake.empty_world
                  (mk_response 200 Fake.page_html) eq_refl eq_refl)
               Fake.blob_script eq_refl).
Defined.

(** C3 does not hold as worded: on a page whose first script element
    mentions the marker without the assignment, the blob of the second
    script element is extracted. *)
Lemma later_script_supplies_blob :
  ~ no_fallback_to_later_script
      Fake.two_script_world (JStr Fake.page_url) Fake.empty_world.
Proof.
  intros H.
  specialize (H (mk_response 200 Fake.page_html) Fake.mention_script
                eq_refl eq_refl eq_refl eq_refl).
  vm_compute in H. discriminate H.
Qed.

(** ** Provisioning of the binary *)

Lemma download_ffmpeg_fast_path (X : Externals) (folder : string) (w : world) :
  path_exists (path_join folder "ffmpeg.exe") (fs w) = true ->
  download_ffmpeg X folder w
  = (Ok (Some folder),
     mk_world (fs w)
       (trace w ++ [Print "FFmpeg is already downloaded and available."])).
Proof.
  intros H. unfold download_ffmpeg, bind at 1, os_path_exists.
  now rewrite H.
Qed.

Lemma network_calls_app t u :
  network_calls (t ++ u) = network_calls t + network_calls u.
Proof.
  induction t as [|[] t IH]; cbn; auto.
Qed.

(** With the executable right under the folder, two calls in a row return
    the folder and send no request. *)
Lemma download_ffmpeg_twice_when_present
  (X : Externals) (folder : string) (w : world) :
  path_exists (path_join folder "ffmpeg.exe") (fs w) = true ->
  let first := download_ffmpeg X folder w in
  let second := download_ffmpeg X folder (snd first) in
  fst first = Ok (Some folder)
  /\ fst second = Ok (Some folder)
  /\ network_calls (trace (snd second)) = network_calls (trace w).
Proof.
  intros H first second. unfold second, first.
  rewrite (download_ffmpeg_fast_path X folder w H). cbn [fst snd].
  rewrite download_ffmpeg_fast_path by exact H. cbn [fst snd trace].
  rewrite !network_calls_app. cbn. repeat split. lia.
Qed.

(** C4: after a first call that fetched and unpacked the release archive,
    whose binary lies in [ffmpeg-master-latest-win64-lgpl/bin], the second
    call returns the same directory but fetches the archive once more: the
    check for an existing binary only looks right under the folder. *)
Theorem download_ffmpeg_fetches_again :
  let X := FakeRelease.release_server in
  let first := download_ffmpeg X "ffmpeg_bin" Fake.empty_world in
  let second := download_ffmpeg X "ffmpeg_bin" (snd first) in
  fst first = Ok (Some "ffmpeg_bin/ffmpeg-master-latest-win64-lgpl/bin")
  /\ fst second = fst first
  /\ network_calls (trace (snd first)) = 1
  /\ network_calls (trace (snd second)) = 2.
Proof.
  vm_compute. repeat split.
Qed.

(** ** The fetch loops *)

Lemma downloads_app t u : downloads (t ++ u) = (downloads t ++ downloads u)%list.
Proof.
  induction t as [|[] t IH]; cbn; auto. now rewrite IH.
Qed.

Lemma isolated_run_downloads X mode videos w w' :
  isolated_run X mode videos w w' ->
  downloads (trace w') = (downloads (trace w) ++ map link videos)%list.
Proof.
  induction 1 as [w | v vs w d w' _ _ IH | v vs w d e w' _ _ IH]; cbn [map].
  - now rewrite app_nil_r.
  - rewrite IH. cbn [trace]. rewrite downloads_app. cbn.
    now rewrite <- app_assoc.
  - rewrite IH. cbn [trace]. rewrite downloads_app. cbn.
    now rewrite <- app_assoc.
Qed.

(** The guarded call of the downloader: whether it returns or raises, the
    loop goes on, with the completion line or the error line printed. *)
Lemma guarded_download (X : Externals) (o : ydl_opts) (l done : string)
  (err : exn -> string) (w : world) :
  raises_exceptions X ->
  try_except (youtube_dl X o l ;; print done)
             [(Exception, fun e => print (err e))] w
  = (Ok tt,
     mk_world (snd (ydl_download X (trace w) o l (fs w)))
       (trace w ++
        [ Download o l;
          Print match fst (ydl_download X (trace w) o l (fs w)) with
                | Ok _ => done
                | Raise e => err e
                end ])).
Proof.
  intros Hexc. unfold try_except, bind, youtube_dl, print, emit.
  pose proof (Hexc (trace w) o l (fs w)) as He.
  destruct (ydl_download X (trace w) o l (fs w)) as [[[]|e] d];
    cbn [fst snd fs trace find] in *.
  - now rewrite <- app_assoc.
  - rewrite (He e eq_refl). cbn [fst snd fs trace]. now rewrite <- app_assoc.
Qed.

Ltac fetch_step X Hexc IH :=
  unfold bind at 1, print at 1, emit at 1; cbn [fs trace];
  unfold bind at 1; rewrite (guarded_download X) by exact Hexc;
  cbn [fs trace];
  match goal with
  | |- context [ydl_download X ?h ?o ?l ?d] =>
      let E := fresh "E" in
      let d' := fresh "d" in
      destruct (ydl_download X h o l d) as [[[]|?e] d'] eqn:E;
      cbn [fst snd];
      match goal with
      | |- context [{| fs := d'; trace := ?t |}] =>
          let w' := fresh "w'" in
          let Hrun := fresh "Hrun" in
          let Hrel := fresh "Hrel" in
          destruct (IH {| fs := d'; trace := t |}) as (w' & Hrun & Hrel);
          exists w'; split; [exact Hrun|];
          rewrite <- app_assoc in Hrel;
          econstructor; [exact E|exact Hrel]
      end
  end.

Lemma download_audio_loop_isolated (X : Externals) (p folder : string) :
  raises_exceptions X ->
  forall videos w,
  exists w',
    download_audio_loop X videos p folder w = (Ok tt, w')
    /\ isolated_run X (audio_mode folder p) videos w w'.
Proof.
  intros Hexc videos.
  induction videos as [|v vs IH]; intros w; cbn [download_audio_loop].
  - exists w. split; [reflexivity|constructor].
  - fetch_step X Hexc IH.
Qed.

Lemma download_video_loop_isolated (X : Externals) (p folder : string) :
  raises_exceptions X ->
  forall videos w,
  exists w',
    download_video_loop X videos p folder w = (Ok tt, w')
    /\ isolated_run X (video_mode folder p) videos w w'.
Proof.
  intros Hexc videos.
  induction videos as [|v vs IH]; intros w; cbn [download_video_loop].
  - exists w. split; [reflexivity|constructor].
  - fetch_step X Hexc IH.
Qed.

Lemma download_audio_unfold X videos p folder :
  download_audio X videos p folder
  = (ensure_folder folder ;; download_audio_loop X videos p folder).
Proof. reflexivity. Qed.

Lemma download_video_unfold X videos p folder :
  download_video X videos p folder
  = (ensure_folder folder ;; download_video_loop X videos p folder).
Proof. reflexivity. Qed.

(** C5: once the output folder is in place, [download_audio] and
    [download_video] take the entries one after the other; an exception the
    downloader raises for an entry is caught and printed with the title of
    that entry, and the entries after it are still attempted: the function
    returns normally and the downloader has been called once for every
    entry, in order. *)
Theorem fetch_isolates_failures
  (X : Externals) (videos : list VideoEntry) (p folder : string)
  (w w1 : world) :
  raises_exceptions X ->
  ensure_folder folder w = (Ok tt, w1) ->
  (exists w',
      download_audio X videos p folder w = (Ok tt, w')
      /\ isolated_run X (audio_mode folder p) videos w1 w'
      /\ downloads (trace w') = (downloads (trace w1) ++ map link videos)%list)
  /\ (exists w',
      download_video X videos p folder w = (Ok tt, w')
      /\ isolated_run X (video_mode folder p) videos w1 w'
      /\ downloads (trace w') = (downloads (trace w1) ++ map link videos)%list).
Proof.
  intros Hexc Hfolder. split.
  - destruct (download_audio_loop_isolated X p folder Hexc videos w1)
      as (w' & Hrun & Hrel).
    exists w'. rewrite download_audio_unfold. unfold bind at 1.
    rewrite Hfolder. split; [exact Hrun|]. split; [exact Hrel|].
    now apply isolated_run_downloads with X (audio_mode folder p).
  - destruct (download_video_loop_isolated X p folder Hexc videos w1)
      as (w' & Hrun & Hrel).
    exists w'. rewrite download_video_unfold. unfold bind at 1.
    rewrite Hfolder. split; [exact Hrun|]. split; [exact Hrel|].
    now apply isolated_run_downloads with X (video_mode folder p).
Qed.

Lemma flaky_raises_exceptions : raises_exceptions FakeTube.flaky.
Proof.
  intros h o l d e. unfold FakeTube.flaky, Fake.externals.
  cbn [ydl_download].
  destruct (existsb (String.eqb l) _); cbn [fst]; [|discriminate].
  now intros [= <-].
Qed.

Lemma fetch_isolates_failures_witness :
  exists w',
    download_audio FakeTube.flaky FakeTube.three "ffmpeg_bin" "music"
      Fake.empty_world = (Ok tt, w')
    /\ downloads (trace w')
       = [ "https://www.youtube.com/watch?v=one";
           "https://www.youtube.com/watch?v=two";
           "https://www.youtube.com/watch?v=three" ].
Proof.
  destruct (fetch_isolates_failures FakeTube.flaky FakeTube.three
              "ffmpeg_bin" "music" Fake.empty_world
              (mk_world [("music", Dir [])] [MakeDirs "music"])
              flaky_raises_exceptions eq_refl)
    as [(w' & Hrun & _ & Hlinks) _].
  exists w'. split; [exact Hrun|exact Hlinks].
Defined.

(** Three entries of which the second is refused by the downloader: the
    first and the third are fetched and reported as done. *)
Example second_of_three_fails :
  let audio := download_audio FakeTube.flaky FakeTube.three "ffmpeg_bin"
                 "music" Fake.empty_world in
  let video := download_video FakeTube.flaky FakeTube.three "ffmpeg_bin"
                 "videos" Fake.empty_world in
  fst audio = Ok tt
  /\ printed (trace (snd audio))
     = [ "Downloading audio: One from https://www.youtube.com/watch?v=one";
         "Downloaded audio: One";
         "Downloading audio: Two from https://www.youtube.com/watch?v=two";
         "Error downloading audio Two: video unavailable";
         "Downloading audio: Three from https://www.youtube.com/watch?v=three";
         "Downloaded audio: Three" ]
  /\ fst video = Ok tt
  /\ printed (trace (snd video))
     = [ "Downloading video: One from https://www.youtube.com/watch?v=one";
         "Downloaded video: One";
         "Downloading video: Two from https://www.youtube.com/watch?v=two";
         "Error downloading video Two: video unavailable";
         "Downloading video: Three from https://www.youtube.com/watch?v=three";
         "Downloaded video: Three" ].
Proof.
  vm_compute. repeat split.
Qed.

(** ** The configuration file *)

Lemma read_json_file_decoded (X : Externals) (file_name : string) (w : world)
  (text : string) (v : json) :
  resolve file_name (fs w) = Some (File text) ->
  json_loads X text = Decoded v ->
  read_json_file X file_name w
  = (Ok v, mk_world (fs w) (trace w ++ [OpenRead file_name])).
Proof.
  intros Hfile Hjson.
  unfold read_json_file, try_except, bind at 1, open_read, bind, emit.
  cbn [fs trace]. rewrite Hfile. unfold json_load. now rewrite Hjson.
Qed.

(** C6: when the configuration file holds a JSON array of descriptor
    objects, [read_json_file] returns that array, so the driver goes through
    the same descriptors in the same order; a descriptor without a
    [with_video] member is processed with the flag [False], which sends its
    videos to [download_audio]. *)
Theorem read_json_file_returns_descriptors
  (X : Externals) (file_name : string) (w : world) (text : string)
  (descriptors : list json) :
  resolve file_name (fs w) = Some (File text) ->
  json_loads X text = Decoded (JArr descriptors) ->
  read_json_file X file_name w
  = (Ok (JArr descriptors), mk_world (fs w) (trace w ++ [OpenRead file_name]))
  /\ py_iter (JArr descriptors) = Ok descriptors
  /\ (forall members url p,
        In (JObj members) descriptors ->
        assoc "link" members = Some url ->
        assoc "with_video" members = None ->
        py_get (JObj members) "with_video" (JBool false) = Ok (JBool false)
        /\ process_playlist X p (JObj members)
           = (print ("Processing playlist: " ++ format_value X url
                     ++ " | With video: " ++ format_value X (JBool false)) ;;
              videos <- extract_playlist_links X url ;;
              download_audio X videos p "music")).
Proof.
  intros Hfile Hjson. split; [now apply read_json_file_decoded with text|].
  split; [reflexivity|].
  intros members url p _ Hlink Hflag.
  unfold process_playlist. cbn [py_getitem py_get]. rewrite Hlink, Hflag.
  split; reflexivity.
Qed.

Lemma read_json_file_returns_descriptors_witness :
  read_json_file FakeRun.studio "playlists.json" FakeRun.configured
  = (Ok FakeRun.config_value,
     mk_world (fs FakeRun.configured) [OpenRead "playlists.json"]).
Proof.
  exact (proj1 (read_json_file_returns_descriptors
                  FakeRun.studio "playlists.json" FakeRun.configured
                  FakeRun.config_text [JObj [("link", JStr Fake.page_url)]]
                  eq_refl eq_refl)).
Defined.

(** C7, as the code has it: when nothing is at the path and no regular file
    stands in the way (so that [open] raises [FileNotFoundError]), and when
    the content of the file is text that is not valid JSON
    ([JSONDecodeError]), [read_json_file] returns the empty list and raises
    nothing; apart from trying to open the file it only prints one line. *)
Theorem read_json_file_degrades_to_empty
  (X : Externals) (file_name : string) (w : world) :
  (resolve file_name (fs w) = None
   /\ blocked (components file_name) (fs w) = false)
  \/ (exists text msg,
        resolve file_name (fs w) = Some (File text)
        /\ json_loads X text = DecodeError msg) ->
  exists line,
    read_json_file X file_name w
    = (Ok (JArr []),
       mk_world (fs w) (trace w ++ [OpenRead file_name; Print line])).
Proof.
  intros [[Hnone Hfree] | (text & msg & Hfile & Hjson)].
  - exists ("File " ++ file_name ++ " not found.").
    unfold read_json_file, try_except, bind at 1, open_read, bind, emit.
    cbn [fs trace]. rewrite Hnone. unfold missing_error. rewrite Hfree.
    cbn. now rewrite <- app_assoc.
  - exists ("Error decoding JSON file " ++ file_name ++ ": " ++ msg).
    unfold read_json_file, try_except, bind at 1, open_read, bind, emit.
    cbn [fs trace]. rewrite Hfile. unfold json_load. rewrite Hjson.
    cbn. now rewrite <- app_assoc.
Qed.

Lemma read_json_file_degrades_to_empty_witness :
  (exists line,
      read_json_file FakeRun.studio "playlists.json" Fake.empty_world
      = (Ok (JArr []), mk_world [] [OpenRead "playlists.json"; Print line]))
  /\ (exists line,
      read_json_file FakeRun.studio "playlists.json" FakeRun.misconfigured
      = (Ok (JArr []),
         mk_world (fs FakeRun.misconfigured)
           [OpenRead "playlists.json"; Print line])).
Proof.
  split.
  - apply (read_json_file_degrades_to_empty
             FakeRun.studio "playlists.json" Fake.empty_world).
    left. split; reflexivity.
  - apply (read_json_file_degrades_to_empty
             FakeRun.studio "playlists.json" FakeRun.misconfigured).
    right. exists "[{oops", "Expecting value". split; reflexivity.
Defined.

(** C7 does not hold as worded: nothing exists at [a/b] when [a] is a
    regular file, yet opening it raises [NotADirectoryError], which
    [read_json_file] does not catch; and a file whose bytes are not text is
    not valid JSON, yet reading it raises [UnicodeDecodeError], which is not
    caught either. *)
Lemma read_json_file_lets_other_errors_through :
  ~ handles_absent_and_invalid FakeRun.studio "a/b" FakeFiles.file_in_the_way
  /\ ~ handles_absent_and_invalid FakeRun.studio "playlists.json"
        FakeFiles.binary_config.
Proof.
  split; intros H.
  - assert (Hraise : fst (read_json_file FakeRun.studio "a/b"
                            FakeFiles.file_in_the_way)
                     = Raise (mk_exn NotADirectoryError "a/b"))
      by reflexivity.
    rewrite H in Hraise; [discriminate Hraise|]. left. reflexivity.
  - assert (Hraise : fst (read_json_file FakeRun.studio "playlists.json"
                            FakeFiles.binary_config)
                     = Raise (mk_exn UnicodeDecodeError "invalid start byte"))
      by reflexivity.
    rewrite H in Hraise; [discriminate Hraise|]. right.
    exists FakeFiles.binary_content. split; [reflexivity|].
    intros v Hv. vm_compute in Hv. discriminate Hv.
Qed.

(** ** The driver *)

Lemma process_playlists_app (X : Externals) (p : string)
  (before after : list json) (w : world) :
  process_playlists X p (before ++ after) w
  = match process_playlists X p before w with
    | (Ok _, w1) => process_playlists X p after w1
    | (Raise e, w1) => (Raise e, w1)
    end.
Proof.
  revert w. induction before as [|d before IH]; intros w;
    cbn [app process_playlists]; [reflexivity|].
  unfold bind.
  destruct (process_playlist X p d w) as [[[]|e] w1]; [apply IH|reflexivity].
Qed.

(** C9: an entry of the configuration without a [link] member is neither
    checked nor dropped by [read_json_file], which returns the decoded array
    as it is; the entry fails with a [KeyError] at the driver's
    [playlist['link']], once the entries before it have been processed. *)
Theorem missing_link_surfaces_in_driver
  (X : Externals) (file_name : string) (w : world) (text : string)
  (before after : list json) (members : list (string * json)) :
  resolve file_name (fs w) = Some (File text) ->
  json_loads X text = Decoded (JArr (before ++ JObj members :: after)) ->
  assoc "link" members = None ->
  read_json_file X file_name w
  = (Ok (JArr (before ++ JObj members :: after)),
     mk_world (fs w) (trace w ++ [OpenRead file_name]))
  /\ (forall p w0,
        process_playlist X p (JObj members) w0
        = (Raise (mk_exn KeyError "'link'"), w0))
  /\ (forall p w0 w1,
        process_playlists X p before w0 = (Ok tt, w1) ->
        process_playlists X p (before ++ JObj members :: after) w0
        = (Raise (mk_exn KeyError "'link'"), w1)).
Proof.
  intros Hfile Hjson Hlink.
  assert (Hentry : forall p w0,
             process_playlist X p (JObj members) w0
             = (Raise (mk_exn KeyError "'link'"), w0)).
  { intros p w0. unfold process_playlist, bind at 1, lift.
    cbn [py_getitem]. now rewrite Hlink. }
  split; [now apply read_json_file_decoded with text|].
  split; [exact Hentry|].
  intros p w0 w1 Hbefore. rewrite process_playlists_app, Hbefore.
  cbn [process_playlists]. unfold bind at 1. now rewrite Hentry.
Qed.

Lemma missing_link_surfaces_in_driver_witness :
  read_json_file FakeRun.studio "playlists.json" FakeRun.linkless
  = (Ok FakeRun.linkless_value,
     mk_world (fs FakeRun.linkless) [OpenRead "playlists.json"])
  /\ fst (main FakeRun.studio FakeRun.linkless)
     = Raise (mk_exn KeyError "'link'").
Proof.
  destruct (missing_link_surfaces_in_driver
              FakeRun.studio "playlists.json" FakeRun.linkless
              FakeRun.linkless_text [JObj [("link", JStr Fake.page_url)]] []
              [("with_video", JBool true)] eq_refl eq_refl eq_refl)
    as (Hread & _ & _).
  split; [exact Hread|]. vm_compute. reflexivity.
Defined.

(** Provisioning touches neither the configuration nor a playlist page, an
    output folder or the downloader. *)

Lemma provisioning_only_ret {A : Type} (a : A) : provisioning_only (ret a).
Proof. intros w. exists []. now rewrite app_nil_r. Qed.

Lemma provisioning_only_emit (ev : event) :
  playlist_event ev = false -> provisioning_only (emit ev).
Proof. intros H w. exists [ev]. cbn. now rewrite H. Qed.

Lemma provisioning_only_bind {A B : Type} (m : M A) (k : A -> M B) :
  provisioning_only m -> (forall a, provisioning_only (k a)) ->
  provisioning_only (bind m k).
Proof.
  intros Hm Hk w. unfold bind.
  destruct (Hm w) as (new1 & Ht1 & Hq1).
  destruct (m w) as [[a|e] w1]; cbn [snd] in *.
  - destruct (Hk a w1) as (new2 & Ht2 & Hq2).
    exists (new1 ++ new2)%list. rewrite Ht2, Ht1, app_assoc. split; auto.
    rewrite existsb_app, Hq1, Hq2. reflexivity.
  - now exists new1.
Qed.

Lemma provisioning_only_same_trace {A : Type} (m : M A) :
  (forall w, trace (snd (m w)) = trace w) -> provisioning_only m.
Proof. intros H w. exists []. now rewrite H, app_nil_r. Qed.

Lemma provisioning_only_fetch (X : Externals) :
  provisioning_only (http_get X (JStr ffmpeg_url)).
Proof. intros w. now exists [HttpGet (JStr ffmpeg_url)]. Qed.

Create HintDb provisioning.
#[local] Hint Resolve provisioning_only_ret provisioning_only_fetch
  : provisioning.
#[local] Hint Extern 2 (provisioning_only (emit _)) =>
  apply provisioning_only_emit; reflexivity : provisioning.
#[local] Hint Extern 2 (provisioning_only (print _)) =>
  apply provisioning_only_emit; reflexivity : provisioning.
#[local] Hint Extern 3 (provisioning_only (bind _ _)) =>
  apply provisioning_only_bind; [|intros ?] : provisioning.
#[local] Hint Extern 5 (provisioning_only _) =>
  apply provisioning_only_same_trace; intros ?; cbn [fs trace snd];
  repeat match goal with
  | |- context [match ?x with _ => _ end] => destruct x
  end; reflexivity : provisioning.

Lemma download_ffmpeg_trace (X : Externals) (folder : string) :
  provisioning_only (download_ffmpeg X folder).
Proof.
  unfold download_ffmpeg, open_write, zip_extractall, os_remove, os_walk,
    os_path_exists.
  apply provisioning_only_bind; [auto with provisioning|intros present].
  destruct present; [auto 10 with provisioning|].
  repeat (apply provisioning_only_bind; [auto 10 with provisioning|intros ?]).
  destruct (find _ _) as [[[root ?] ?]|]; auto 10 with provisioning.
Qed.



(** The end-to-end scenario: one configured playlist of one song is fetched
    by a single call of the downloader in audio mode, writing to
    [music/Song A.%(ext)s]. *)
Example one_song_end_to_end :
  let run := main FakeRun.studio FakeRun.configured in
  fst run = Ok tt
  /\ downloads (trace (snd run)) = ["https://www.youtube.com/watch?v=abc123"]
  /\ In (Download
           (audio_opts "music"
              "ffmpeg_bin/ffmpeg-master-latest-win64-lgpl/bin" "Song A")
           "https://www.youtube.com/watch?v=abc123")
        (trace (snd run))
  /\ outtmpl (audio_opts "music"
                "ffmpeg_bin/ffmpeg-master-latest-win64-lgpl/bin" "Song A")
     = "music/Song A.%(ext)s".
Proof.
  vm_compute. repeat split. do 12 right. left. reflexivity.
Qed.

(** ** The output folder *)

Lemma assoc_app_miss {A : Type} (k name : string) (v : A) (d : list (string * A)) :
  assoc name d = None ->
  assoc k (d ++ [(name, v)])
  = if String.eqb k name then Some v else assoc k d.
Proof.
  induction d as [|[k' v'] d IH]; cbn [app assoc]; intros H.
  - reflexivity.
  - destruct (String.eqb_spec name k') as [->|Hne]; [discriminate|].
    destruct (String.eqb_spec k k') as [->|Hk].
    + destruct (String.eqb_spec k' name); congruence.
    + now apply IH.
Qed.

Lemma assoc_assoc_set {A : Type} (k name : string) (v : A) (d : list (string * A)) :
  assoc k (assoc_set name v d)
  = if String.eqb k name then Some v else assoc k d.
Proof.
  induction d as [|[k' v'] d IH]; cbn [assoc_set assoc].
  - destruct (String.eqb k name); reflexivity.
  - destruct (String.eqb_spec name k') as [->|Hne]; cbn [assoc].
    + destruct (String.eqb k k'); reflexivity.
    + destruct (String.eqb_spec k k') as [->|Hk].
      * destruct (String.eqb_spec k' name); congruence.
      * exact IH.
Qed.

Lemma lookup_below_nothing q : q <> [] -> lookup q [] = None.
Proof. destruct q; [congruence|reflexivity]. Qed.

(** [os.makedirs] leaves every path that is not an ancestor of the new
    directory as it was. *)
Lemma makedirs_frame p : forall d d' q,
  makedirs p d = Some d' ->
  is_prefix q p = false ->
  lookup q d' = lookup q d.
Proof.
  induction p as [|name p IH]; intros d d' q Hmk Hq.
  - cbn [makedirs] in Hmk. now injection Hmk as <-.
  - destruct q as [|k q]; [discriminate|].
    cbn [makedirs] in Hmk. cbn [is_prefix] in Hq. cbn [lookup].
    destruct (assoc name d) as [[c|sub]|] eqn:Hname; [discriminate| |].
    + destruct (makedirs p sub) as [sub'|] eqn:Hsub; [|discriminate].
      injection Hmk as <-. rewrite assoc_assoc_set.
      destruct (String.eqb_spec k name) as [->|Hk]; [|reflexivity].
      rewrite Hname. cbn [andb] in Hq. now apply IH.
    + destruct (makedirs p []) as [sub'|] eqn:Hsub; [|discriminate].
      injection Hmk as <-. rewrite (assoc_app_miss _ _ _ _ Hname).
      destruct (String.eqb_spec k name) as [->|Hk]; [|reflexivity].
      rewrite Hname. cbn [andb] in Hq. rewrite (IH _ _ _ Hsub Hq).
      apply lookup_below_nothing. intros ->. discriminate.
Qed.

(** After [os.makedirs] the path and its ancestors are directories. *)
Lemma makedirs_makes_directories p : forall d d' q,
  makedirs p d = Some d' ->
  is_prefix q p = true ->
  kind_at q d' = Some KDir.
Proof.
  induction p as [|name p IH]; intros d d' q Hmk Hq.
  - destruct q; [reflexivity|discriminate].
  - destruct q as [|k q]; [reflexivity|].
    cbn [makedirs] in Hmk. cbn [is_prefix] in Hq.
    apply andb_prop in Hq. destruct Hq as [Hk Hq].
    apply String.eqb_eq in Hk. subst k.
    unfold kind_at. cbn [lookup].
    destruct (assoc name d) as [[c|sub]|] eqn:Hname; [discriminate| |].
    + destruct (makedirs p sub) as [sub'|] eqn:Hsub; [|discriminate].
      injection Hmk as <-. rewrite assoc_assoc_set, String.eqb_refl.
      now apply (IH sub sub' q).
    + destruct (makedirs p []) as [sub'|] eqn:Hsub; [|discriminate].
      injection Hmk as <-. rewrite (assoc_app_miss _ _ _ _ Hname).
      rewrite String.eqb_refl. now apply (IH [] sub' q).
Qed.

Lemma is_prefix_refl p : is_prefix p p = true.
Proof.
  induction p as [|a p IH]; cbn; [reflexivity|].
  now rewrite String.eqb_refl.
Qed.

(** A folder named by a single component, as [music] and [videos] are, can
    always be made when it is absent. *)
Lemma makedirs_single name d :
  lookup [name] d = None ->
  makedirs [name] d = Some (d ++ [(name, Dir [])])%list.
Proof.
  cbn [lookup makedirs].
  destruct (assoc name d) as [[c|sub]|]; [discriminate..|reflexivity].
Qed.

Lemma ensure_folder_makes (folder : string) (w : world) (d : dir) :
  folder <> "" ->
  path_exists folder (fs w) = false ->
  makedirs (components folder) (fs w) = Some d ->
  ensure_folder folder w
  = (Ok tt, mk_world d (trace w ++ [MakeDirs folder])).
Proof.
  unfold path_exists, ensure_folder, bind at 1, os_path_exists, path_exists.
  intros Hne Hex Hmk.
  destruct (resolve folder (fs w)) eqn:Hl; [discriminate|].
  unfold os_makedirs, bind, emit. cbn [fs trace]. rewrite Hl.
  destruct (String.eqb_spec folder "") as [->|_]; [congruence|].
  now rewrite Hmk.
Qed.

(** The default folders [music] and [videos] are single names, so making
    them cannot fail. *)
Lemma default_folders_are_made
  (X : Externals) (videos : list VideoEntry) (p : string) (w : world) :
  (path_exists "music" (fs w) = false ->
   download_audio X videos p "music" w
   = download_audio_loop X videos p "music"
       (mk_world (fs w ++ [("music", Dir [])])%list (trace w ++ [MakeDirs "music"])))
  /\ (path_exists "videos" (fs w) = false ->
      download_video X videos p "videos" w
      = download_video_loop X videos p "videos"
          (mk_world (fs w ++ [("videos", Dir [])])%list
             (trace w ++ [MakeDirs "videos"]))).
Proof.
  split; intros Hex.
  - rewrite download_audio_unfold. unfold bind at 1.
    rewrite (ensure_folder_makes "music" w (fs w ++ [("music", Dir [])])%list);
      [reflexivity|discriminate|exact Hex|].
    apply makedirs_single. unfold path_exists, resolve in Hex.
    change (String.eqb "music" "") with false in Hex.
    change (components "music") with ["music"] in Hex. cbv iota in Hex.
    now destruct (lookup ["music"] (fs w)).
  - rewrite download_video_unfold. unfold bind at 1.
    rewrite (ensure_folder_makes "videos" w (fs w ++ [("videos", Dir [])])%list);
      [reflexivity|discriminate|exact Hex|].
    apply makedirs_single. unfold path_exists, resolve in Hex.
    change (String.eqb "videos" "") with false in Hex.
    change (components "videos") with ["videos"] in Hex. cbv iota in Hex.
    now destruct (lookup ["videos"] (fs w)).
Qed.

(** C10: when the output folder is absent (and no file stands in the way of
    making it), [download_audio] and [download_video] make it before they
    turn to the first entry; with no entries that is all they do: the folder
    and its missing ancestors become directories and every other path is as
    before. *)
Theorem fetch_makes_output_folder
  (X : Externals) (videos : list VideoEntry) (p folder : string)
  (w : world) (d : dir) :
  folder <> "" ->
  path_exists folder (fs w) = false ->
  makedirs (components folder) (fs w) = Some d ->
  let w1 := mk_world d (trace w ++ [MakeDirs folder]) in
  download_audio X videos p folder w
  = download_audio_loop X videos p folder w1
  /\ download_video X videos p folder w
     = download_video_loop X videos p folder w1
  /\ download_audio X [] p folder w = (Ok tt, w1)
  /\ download_video X [] p folder w = (Ok tt, w1)
  /\ kind_at (components folder) d = Some KDir
  /\ (forall q, is_prefix q (components folder) = false ->
        lookup q d = lookup q (fs w)).
Proof.
  intros Hne Hex Hmk w1.
  pose proof (ensure_folder_makes folder w d Hne Hex Hmk) as Hfolder.
  assert (Haudio : forall vs, download_audio X vs p folder w
                              = download_audio_loop X vs p folder w1).
  { intros vs. rewrite download_audio_unfold. unfold bind at 1.
    now rewrite Hfolder. }
  assert (Hvideo : forall vs, download_video X vs p folder w
                              = download_video_loop X vs p folder w1).
  { intros vs. rewrite download_video_unfold. unfold bind at 1.
    now rewrite Hfolder. }
  split; [apply Haudio|]. split; [apply Hvideo|].
  split; [now rewrite Haudio|]. split; [now rewrite Hvideo|].
  split.
  - apply makedirs_makes_directories with (components folder) (fs w);
      [exact Hmk|apply is_prefix_refl].
  - intros q Hq. now apply makedirs_frame with (components folder).
Qed.

Lemma fetch_makes_output_folder_witness :
  download_audio FakeTube.flaky [] "ffmpeg_bin" "music" FakeRun.configured
  = (Ok tt,
     mk_world (fs FakeRun.configured ++ [("music", Dir [])])%list
       [MakeDirs "music"])
  /\ download_video FakeTube.flaky [] "ffmpeg_bin" "videos" FakeRun.configured
     = (Ok tt,
        mk_world (fs FakeRun.configured ++ [("videos", Dir [])])%list
          [MakeDirs "videos"]).
Proof.
  split.
  - exact (proj1 (proj2 (proj2
             (fetch_makes_output_folder FakeTube.flaky [] "ffmpeg_bin" "music"
                FakeRun.configured
                (fs FakeRun.configured ++ [("music", Dir [])])%list
                ltac:(discriminate) eq_refl eq_refl)))).
  - exact (proj1 (proj2 (proj2 (proj2
             (fetch_makes_output_folder FakeTube.flaky [] "ffmpeg_bin"
                "videos" FakeRun.configured
                (fs FakeRun.configured ++ [("videos", Dir [])])%list
                ltac:(discriminate) eq_refl eq_refl))))).
Defined.

(** * Further properties *)

(** ** What the extraction does to the world *)

Lemma console_only_ret {A : Type} (a : A) : console_only (ret a).
Proof. intros w. exists []. cbn. rewrite app_nil_r. now destruct w. Qed.

Lemma console_only_raise {A : Type} c msg : console_only (@raise A c msg).
Proof. intros w. exists []. cbn. rewrite app_nil_r. now destruct w. Qed.

Lemma console_only_lift {A : Type} (r : result A) : console_only (lift r).
Proof. intros w. exists []. cbn. rewrite app_nil_r. now destruct w. Qed.

Lemma console_only_print line : console_only (print line).
Proof. intros w. now exists [line]. Qed.

Lemma console_only_bind {A B : Type} (m : M A) (k : A -> M B) :
  console_only m -> (forall a, console_only (k a)) -> console_only (bind m k).
Proof.
  intros Hm Hk w. unfold bind. destruct (Hm w) as (l1 & H1).
  destruct (m w) as [[a|e] w1]; cbn [snd] in *.
  - destruct (Hk a w1) as (l2 & H2). exists (l1 ++ l2)%list.
    rewrite H2, H1. cbn [fs trace]. now rewrite map_app, app_assoc.
  - now exists l1.
Qed.

Lemma console_only_try_except {A : Type} (body : M A)
  (handlers : list (exn_class * (exn -> M A))) :
  console_only body ->
  Forall (fun h => forall e, console_only (snd h e)) handlers ->
  console_only (try_except body handlers).
Proof.
  intros Hb Hh w. unfold try_except. destruct (Hb w) as (l1 & H1).
  destruct (body w) as [[a|e] w1]; cbn [snd] in *; [now exists l1|].
  destruct (find _ handlers) as [h|] eqn:Hfind; [|now exists l1].
  apply find_some in Hfind. destruct Hfind as [Hin _].
  rewrite Forall_forall in Hh. destruct (Hh h Hin e w1) as (l2 & H2).
  exists (l1 ++ l2)%list.
  rewrite H2, H1. cbn [fs trace]. now rewrite map_app, app_assoc.
Qed.

Create HintDb console.
#[local] Hint Resolve console_only_ret console_only_raise console_only_lift
  console_only_print : console.
#[local] Hint Extern 3 (console_only (bind _ _)) =>
  apply console_only_bind; [|intros ?] : console.

Lemma try_except_bind {A B : Type} (m : M A) (k : A -> M B)
  (handlers : list (exn_class * (exn -> M B))) (w : world) :
  try_except (bind m k) handlers w
  = match m w with
    | (Ok a, w1) => try_except (k a) handlers w1
    | (Raise e, w1) => try_except (fun w' => (Raise e, w')) handlers w1
    end.
Proof.
  unfold try_except, bind. now destruct (m w) as [[a|e] w1].
Qed.

(** X1: whatever the page and whatever the outcome, [extract_playlist_links]
    leaves the files as they are and adds to the trace its one request
    followed by printed lines only: it writes nothing and never calls the
    downloader. *)
Theorem extract_only_requests_and_prints
  (X : Externals) (url : json) (w : world) :
  exists lines,
    snd (extract_playlist_links X url w)
    = mk_world (fs w) (trace w ++ HttpGet url :: map Print lines).
Proof.
  assert (Hhandlers :
    Forall (fun h : exn_class * (exn -> M (list VideoEntry)) =>
              forall e, console_only (snd h e))
      [ (RequestException,
         fun e => print ("Error fetching the webpage: " ++ exn_msg e) ;;
                  ret []);
        (JSONDecodeError,
         fun e => print ("Error decoding JSON data: " ++ exn_msg e) ;;
                  ret []) ]).
  { repeat constructor; intros e; cbn [snd]; auto with console. }
  unfold extract_playlist_links. rewrite try_except_bind.
  unfold http_get at 1.
  set (w1 := mk_world (fs w) (trace w ++ [HttpGet url])).
  assert (Hgoal : forall m : M (list VideoEntry), console_only m ->
            exists lines,
              snd (try_except m
                     [ (RequestException,
                        fun e => print ("Error fetching the webpage: "
                                        ++ exn_msg e) ;; ret []);
                       (JSONDecodeError,
                        fun e => print ("Error decoding JSON data: "
                                        ++ exn_msg e) ;; ret []) ] w1)
              = mk_world (fs w) (trace w ++ HttpGet url :: map Print lines)).
  { intros m Hm.
    destruct (console_only_try_except m _ Hm Hhandlers w1) as (lines & H).
    exists lines. rewrite H. unfold w1. cbn [fs trace].
    now rewrite <- app_assoc. }
  destruct (requests_get X (trace w) url) as [r|e]; apply Hgoal.
  - apply console_only_bind.
    + unfold raise_for_status. destruct (_ && _); auto with console.
    + intros _. destruct (find_playlist_data _) as [blob|];
        [|auto with console].
      destruct (String.eqb blob ""); [auto with console|].
      apply console_only_bind; [|auto 10 with console].
      unfold json_load. destruct (json_loads X blob); auto with console.
  - intros w'. exists []. cbn. rewrite app_nil_r. now destruct w'.
Qed.

(** ** Chains of [.get] calls *)

Lemma playlist_items_of_get_path data :
  playlist_items_of data = get_path items_path (JArr []) data.
Proof. reflexivity. Qed.

Lemma get_path_cons k k' ks default v :
  get_path (k :: k' :: ks) default v
  = (x <~ py_get v k (JObj []) ;; get_path (k' :: ks) default x).
Proof. reflexivity. Qed.

Lemma get_path_empty_object ks default :
  ks <> [] -> get_path ks default (JObj []) = Ok default.
Proof.
  induction ks as [|k ks IH]; [congruence|]. intros _.
  destruct ks as [|k' ks]; [reflexivity|].
  rewrite get_path_cons. cbn [py_get assoc rbind]. apply IH. discriminate.
Qed.

(** A chain that returns gives the value at the end of the path, or the
    default when a key is missing on the way. *)
Lemma get_path_ok ks default : forall v x,
  ks <> [] ->
  get_path ks default v = Ok x ->
  follow ks v = Some x \/ (follow ks v = None /\ x = default).
Proof.
  induction ks as [|k ks IH]; intros v x Hne H; [congruence|].
  destruct v as [| | | | | |members];
    try (destruct ks; [|rewrite get_path_cons in H];
         cbn [get_path py_get rbind] in H; discriminate H).
  cbn [follow field].
  destruct ks as [|k' ks].
  - cbn [get_path py_get] in H. injection H as <-.
    destruct (assoc k members); cbn [follow]; auto.
  - rewrite get_path_cons in H. cbn [py_get rbind] in H.
    destruct (assoc k members) as [v'|].
    + apply IH; [discriminate|exact H].
    + rewrite get_path_empty_object in H by discriminate.
      injection H as <-. auto.
Qed.

(** A chain raises exactly when it calls [.get] on a value that is not an
    object, and what it raises is an [AttributeError]. *)
Lemma get_path_raises ks default : forall v,
  hits_non_object ks v ->
  exists msg, get_path ks default v = Raise (mk_exn AttributeError msg).
Proof.
  induction ks as [|k ks IH]; intros v H; [contradiction|].
  destruct v as [| | | | | |members];
    try (destruct ks; [|rewrite get_path_cons];
         cbn [get_path py_get rbind]; eexists; reflexivity).
  cbn [hits_non_object] in H.
  destruct (assoc k members) as [v'|] eqn:Hk; [|contradiction].
  destruct ks as [|k' ks]; [contradiction|].
  rewrite get_path_cons. cbn [py_get rbind]. rewrite Hk. now apply IH.
Qed.

Lemma get_path_returns ks default : forall v,
  ks <> [] -> ~ hits_non_object ks v ->
  exists x, get_path ks default v = Ok x.
Proof.
  induction ks as [|k ks IH]; intros v Hne H; [congruence|].
  destruct v as [| | | | | |members];
    try (exfalso; apply H; exact I).
  cbn [hits_non_object] in H.
  destruct ks as [|k' ks]; [cbn [get_path py_get]; eauto|].
  rewrite get_path_cons. cbn [py_get rbind].
  destruct (assoc k members) as [v'|] eqn:Hk.
  - apply IH; [discriminate|exact H].
  - rewrite get_path_empty_object by discriminate. eauto.
Qed.

(** ** The items of a playlist, whatever their shape *)

Lemma video_of_item_unfold X item :
  video_of_item X item
  = (video_renderer <~ py_get item "playlistPanelVideoRenderer" (JObj []) ;;
     title <~ get_path ["title"; "simpleText"] (JStr "No Title")
                video_renderer ;;
     video_id <~ get_path ["navigationEndpoint"; "watchEndpoint"; "videoId"]
                   (JStr "") video_renderer ;;
     if truthy video_id
     then Ok (Some (mk_video title (watch_url ++ format_value X video_id)))
     else Ok None).
Proof.
  unfold video_of_item. cbn [get_path].
  destruct (py_get item _ _) as [vr|]; cbn [rbind]; [|reflexivity].
  destruct (py_get vr "title" _) as [t|]; cbn [rbind]; [|reflexivity].
  destruct (py_get t _ _) as [title|]; cbn [rbind]; [|reflexivity].
  destruct (py_get vr _ _) as [ne|]; cbn [rbind]; [|reflexivity].
  destruct (py_get ne _ _) as [we|]; cbn [rbind]; [|reflexivity].
  destruct (py_get we _ _) as [id|]; cbn [rbind]; [|reflexivity].
  now destruct (truthy id).
Qed.

Lemma follow_object k ks members :
  follow (k :: ks) (JObj members)
  = match assoc k members with
    | Some v => follow ks v
    | None => None
    end.
Proof. reflexivity. Qed.

(** The two outcomes of [video_of_item] on an item of any shape. *)
Lemma video_of_item_cases (X : Externals) (item : json) :
  (forall v,
      video_of_item X item = Ok (Some v) ->
      exists id,
        follow id_path item = Some id
        /\ truthy id = true
        /\ v = mk_video
                 match follow title_path item with
                 | Some t => t
                 | None => JStr "No Title"
                 end
                 (watch_url ++ format_value X id))
  /\ (video_of_item X item = Ok None ->
      match follow id_path item with
      | Some id => truthy id = false
      | None => True
      end).
Proof.
  rewrite video_of_item_unfold. unfold id_path, title_path.
  destruct item as [| | | | | |members];
    try (split; [intros v H|intros H]; discriminate H).
  cbn [py_get rbind]. rewrite !follow_object.
  destruct (assoc "playlistPanelVideoRenderer" members) as [vr|].
  - destruct (get_path ["title"; "simpleText"] _ vr) as [t|] eqn:Ht;
      cbn [rbind]; [|split; [intros v H|intros H]; discriminate H].
    destruct (get_path ["navigationEndpoint"; _; _] _ vr) as [id|] eqn:Hid;
      cbn [rbind]; [|split; [intros v H|intros H]; discriminate H].
    apply get_path_ok in Hid; [|discriminate].
    apply get_path_ok in Ht; [|discriminate].
    split.
    + intros v H. destruct (truthy id) eqn:Htruthy; [|discriminate H].
      injection H as <-.
      destruct Hid as [Hid | [_ ->]]; [|discriminate Htruthy].
      exists id. split; [exact Hid|]. split; [exact Htruthy|].
      destruct Ht as [-> | [-> ->]]; reflexivity.
    + intros H. destruct (truthy id) eqn:Htruthy; [discriminate H|].
      destruct Hid as [-> | [-> _]]; [exact Htruthy|exact I].
  - rewrite !get_path_empty_object by discriminate. cbn [rbind truthy].
    split; [intros v H; discriminate H|trivial].
Qed.

(** X2: for an item of any shape, [video_of_item] builds an entry only when
    the path to [videoId] leads to a value that counts as true, and the
    entry then carries the watch address of that value and the title found
    at [simpleText] (or "No Title"); when it skips the item, the identifier
    is missing or counts as false (empty string, [null], [0], [false], empty
    list or object). *)
Theorem item_yields_entry_for_truthy_id (X : Externals) (item : json) :
  (forall v,
      video_of_item X item = Ok (Some v) ->
      exists id,
        follow id_path item = Some id
        /\ truthy id = true
        /\ v = mk_video
                 match follow title_path item with
                 | Some t => t
                 | None => JStr "No Title"
                 end
                 (watch_url ++ format_value X id))
  /\ (video_of_item X item = Ok None ->
      match follow id_path item with
      | Some id => truthy id = false
      | None => True
      end).
Proof. exact (video_of_item_cases X item). Qed.

Lemma item_yields_entry_for_truthy_id_witness :
  (exists id,
      follow id_path (FakeShapes.id_item (JInt 7)) = Some id
      /\ truthy id = true
      /\ mk_video (JStr "No Title") (watch_url ++ "<object>")
         = mk_video
             match follow title_path (FakeShapes.id_item (JInt 7)) with
             | Some t => t
             | None => JStr "No Title"
             end
             (watch_url ++ format_value Fake.page_world id))
  /\ match follow id_path (FakeShapes.id_item (JInt 0)) with
     | Some id => truthy id = false
     | None => True
     end.
Proof.
  split.
  - exact (proj1 (item_yields_entry_for_truthy_id Fake.page_world
                    (FakeShapes.id_item (JInt 7)))
                 (mk_video (JStr "No Title") (watch_url ++ "<object>"))
                 eq_refl).
  - exact (proj2 (item_yields_entry_for_truthy_id Fake.page_world
                    (FakeShapes.id_item (JInt 0)))
                 eq_refl).
Defined.

Lemma collect_videos_provenance (X : Externals) (items : list json) :
  forall acc videos,
    collect_videos X items acc = Ok videos ->
    exists picked,
      videos = (acc ++ picked)%list
      /\ length picked <= length items
      /\ Forall (fun v => exists item,
                   In item items /\ video_of_item X item = Ok (Some v))
                picked.
Proof.
  induction items as [|item items IH]; intros acc videos H;
    cbn [collect_videos] in H.
  - injection H as <-. exists []. rewrite app_nil_r. auto.
  - destruct (video_of_item X item) as [[v|]|e] eqn:Hitem; [| |discriminate H].
    + destruct (IH _ _ H) as (picked & -> & Hlen & Hall).
      exists (v :: picked). rewrite <- app_assoc. split; [reflexivity|].
      split; [cbn; lia|]. constructor.
      * exists item. split; [now left|exact Hitem].
      * eapply Forall_impl; [|exact Hall].
        intros v' (item' & Hin & Hv'). exists item'. split; [now right|auto].
    + destruct (IH _ _ H) as (picked & -> & Hlen & Hall).
      exists picked. split; [reflexivity|]. split; [cbn; lia|].
      eapply Forall_impl; [|exact Hall].
      intros v' (item' & Hin & Hv'). exists item'. split; [now right|auto].
Qed.

(** An exception inside the extraction either ends as the empty list (a
    handler caught it) or propagates. *)
Lemma extract_handlers_give_empty (e : exn) (w : world)
  (videos : list VideoEntry) :
  fst (try_except (fun w' => (Raise e, w'))
         [ (RequestException,
            fun e => print ("Error fetching the webpage: " ++ exn_msg e) ;;
                     ret []);
           (JSONDecodeError,
            fun e => print ("Error decoding JSON data: " ++ exn_msg e) ;;
                     ret []) ] w) = Ok videos ->
  videos = [].
Proof.
  unfold try_except. cbn [find fst snd].
  destruct (isinstance e RequestException);
    [cbn; congruence|].
  destruct (isinstance e JSONDecodeError); cbn; congruence.
Qed.

(** What [extract_playlist_links] returns is empty or comes out of the loop
    over the items. *)
Lemma extract_ok_cases (X : Externals) (url : json) (w : world)
  (videos : list VideoEntry) :
  fst (extract_playlist_links X url w) = Ok videos ->
  videos = [] \/ exists items, collect_videos X items [] = Ok videos.
Proof.
  unfold extract_playlist_links. rewrite try_except_bind. unfold http_get.
  match goal with
  | |- context [try_except _ ?hs] => set (handlers := hs)
  end.
  destruct (requests_get X (trace w) url) as [r|e];
    [|intros H; left; now apply extract_handlers_give_empty in H].
  rewrite try_except_bind. unfold raise_for_status.
  destruct (_ && _);
    [intros H; left; now apply extract_handlers_give_empty in H|].
  cbn [ret].
  destruct (find_playlist_data _) as [blob|]; [|intros H; left; cbn in H; congruence].
  destruct (String.eqb blob ""); [intros H; left; cbn in H; congruence|].
  rewrite try_except_bind. unfold json_load.
  destruct (json_loads X blob) as [data|msg|msg];
    [|intros H; left; now apply extract_handlers_give_empty in H..].
  cbn [ret]. rewrite try_except_bind. unfold lift at 1.
  destruct (playlist_items_of data) as [playlist_items|e];
    [|intros H; left; now apply extract_handlers_give_empty in H].
  rewrite try_except_bind. unfold lift at 1.
  destruct (py_iter playlist_items) as [items|e];
    [|intros H; left; now apply extract_handlers_give_empty in H].
  unfold lift.
  destruct (collect_videos X items []) as [vs|e] eqn:Hcollect.
  - intros H. right. exists items. cbn in H. congruence.
  - intros H. left.
    change (try_except (fun w0 => (Raise e, w0)) handlers
              (mk_world (fs w) (trace w ++ [HttpGet url])))
      with (try_except (fun w' => (Raise e, w')) handlers
              (mk_world (fs w) (trace w ++ [HttpGet url]))) in H.
    now apply extract_handlers_give_empty in H.
Qed.

(** X3: whatever the page holds, every entry [extract_playlist_links]
    returns has a link made of the watch address followed by an identifier
    that counts as true; no entry has an empty or foreign link. *)
Theorem extract_links_are_watch_addresses
  (X : Externals) (url : json) (w : world) (videos : list VideoEntry) :
  fst (extract_playlist_links X url w) = Ok videos ->
  Forall (fun v =>
            Text.starts_with watch_url (link v) = true
            /\ exists id, truthy id = true
                          /\ link v = watch_url ++ format_value X id)
         videos.
Proof.
  intros H. apply extract_ok_cases in H.
  destruct H as [-> | [items Hcollect]]; [constructor|].
  apply collect_videos_provenance in Hcollect.
  destruct Hcollect as (picked & -> & _ & Hall). cbn [app].
  eapply Forall_impl; [|exact Hall].
  intros v (item & _ & Hitem).
  destruct (proj1 (video_of_item_cases X item) v Hitem)
    as (id & _ & Htruthy & ->).
  cbn [link]. split; [apply starts_with_app|]. now exists id.
Qed.

Lemma extract_links_are_watch_addresses_witness :
  Forall (fun v =>
            Text.starts_with watch_url (link v) = true
            /\ exists id, truthy id = true
                          /\ link v = watch_url ++ format_value Fake.page_world id)
    [ mk_video (JStr "Song A") "https://www.youtube.com/watch?v=abc123";
      mk_video (JStr "No Title") "https://www.youtube.com/watch?v=xyz789" ].
Proof.
  exact (extract_links_are_watch_addresses Fake.page_world
           (JStr Fake.page_url) Fake.empty_world _ eq_refl).
Defined.

(** ** Shapes the extraction does not survive *)

Lemma uncaught_by_extract (c : exn_class) (msg : string)
  (w : world) :
  isinstance (mk_exn c msg) RequestException = false ->
  isinstance (mk_exn c msg) JSONDecodeError = false ->
  try_except (fun w' => (Raise (mk_exn c msg), w'))
    [ (RequestException,
       fun e => print ("Error fetching the webpage: " ++ exn_msg e) ;;
                ret ([] : list VideoEntry));
      (JSONDecodeError,
       fun e => print ("Error decoding JSON data: " ++ exn_msg e) ;;
                ret []) ] w
  = (Raise (mk_exn c msg), w).
Proof.
  intros H1 H2. unfold try_except. cbn [find fst snd]. now rewrite H1, H2.
Qed.

(** X4: when a key of the navigation path is present but holds something
    that is not an object ([null], a list, a number, a string), the next
    [.get] raises [AttributeError]; neither handler of
    [extract_playlist_links] catches it, so the caller gets the exception
    instead of a list. *)
Theorem extract_raises_on_non_object
  (X : Externals) (url : json) (w : world) (r : response) (blob : string)
  (data : json) :
  requests_get X (trace w) url = Ok r ->
  status_is_error r = false ->
  find_playlist_data (script_strings X (body r)) = Some blob ->
  json_loads X blob = Decoded data ->
  hits_non_object items_path data ->
  exists msg,
    extract_playlist_links X url w
    = (Raise (mk_exn AttributeError msg),
       mk_world (fs w) (trace w ++ [HttpGet url])).
Proof.
  intros Hget Hstatus Hfind Hjson Hblocked.
  rewrite (extract_on_decoded_blob X url w r blob data) by assumption.
  rewrite try_except_bind. unfold lift at 1.
  rewrite playlist_items_of_get_path.
  destruct (get_path_raises items_path (JArr []) data Hblocked) as [msg ->].
  exists msg. now apply uncaught_by_extract.
Qed.

Lemma extract_raises_on_non_object_witness :
  exists msg,
    extract_playlist_links
      (FakeShapes.serving FakeShapes.null_contents_text
         FakeShapes.null_contents_value)
      (JStr Fake.page_url) Fake.empty_world
    = (Raise (mk_exn AttributeError msg),
       mk_world [] [HttpGet (JStr Fake.page_url)]).
Proof.
  exact (extract_raises_on_non_object
           (FakeShapes.serving FakeShapes.null_contents_text
              FakeShapes.null_contents_value)
           (JStr Fake.page_url) Fake.empty_world
           (mk_response 200 Fake.page_html) FakeShapes.null_contents_text
           FakeShapes.null_contents_value eq_refl eq_refl eq_refl eq_refl I).
Defined.

Lemma py_iter_raises_type_error v e :
  py_iter v = Raise e -> exn_type e = TypeError.
Proof.
  destruct v; cbn [py_iter]; intros H; try discriminate H;
    now injection H as <-.
Qed.

(** X5: when the playlist contents at the end of the path are neither a
    list, an object nor a string, the loop over them raises [TypeError], and
    [extract_playlist_links] lets it through to its caller. *)
Theorem extract_raises_on_contents_not_iterable
  (X : Externals) (url : json) (w : world) (r : response) (blob : string)
  (data contents : json) (e : exn) :
  requests_get X (trace w) url = Ok r ->
  status_is_error r = false ->
  find_playlist_data (script_strings X (body r)) = Some blob ->
  json_loads X blob = Decoded data ->
  follow items_path data = Some contents ->
  py_iter contents = Raise e ->
  exn_type e = TypeError
  /\ extract_playlist_links X url w
     = (Raise e, mk_world (fs w) (trace w ++ [HttpGet url])).
Proof.
  intros Hget Hstatus Hfind Hjson Hfollow Hiter.
  pose proof (py_iter_raises_type_error _ _ Hiter) as Htype.
  split; [exact Htype|].
  rewrite (extract_on_decoded_blob X url w r blob data) by assumption.
  rewrite try_except_bind. unfold lift at 1.
  rewrite (playlist_items_follow _ _ Hfollow).
  rewrite try_except_bind. unfold lift at 1. rewrite Hiter.
  destruct e as [c msg]. cbn [exn_type] in Htype. subst c.
  now apply uncaught_by_extract.
Qed.

Lemma extract_raises_on_contents_not_iterable_witness :
  extract_playlist_links
    (FakeShapes.serving FakeShapes.number_text FakeShapes.number_value)
    (JStr Fake.page_url) Fake.empty_world
  = (Raise (mk_exn TypeError "'int' object is not iterable"),
     mk_world [] [HttpGet (JStr Fake.page_url)]).
Proof.
  exact (proj2 (extract_raises_on_contents_not_iterable
                  (FakeShapes.serving FakeShapes.number_text
                     FakeShapes.number_value)
                  (JStr Fake.page_url) Fake.empty_world
                  (mk_response 200 Fake.page_html) FakeShapes.number_text
                  FakeShapes.number_value (JInt 7)
                  (mk_exn TypeError "'int' object is not iterable")
                  eq_refl eq_refl eq_refl eq_refl eq_refl eq_refl)).
Defined.

Lemma collect_videos_app (X : Externals) (before after : list json) :
  forall acc,
    collect_videos X (before ++ after) acc
    = match collect_videos X before acc with
      | Ok acc' => collect_videos X after acc'
      | Raise e => Raise e
      end.
Proof.
  induction before as [|item before IH]; intros acc;
    cbn [app collect_videos]; [reflexivity|].
  destruct (video_of_item X item) as [[v|]|e]; auto.
Qed.

(** X6: one item that is not an object spoils the whole playlist: the loop
    raises [AttributeError] at that item, the entries collected from the
    items before it are dropped, and the items after it are not looked
    at. *)
Theorem extract_loses_entries_at_bad_item
  (X : Externals) (url : json) (w : world) (r : response) (blob : string)
  (data : json) (before after : list json) (item : json)
  (collected : list VideoEntry) :
  requests_get X (trace w) url = Ok r ->
  status_is_error r = false ->
  find_playlist_data (script_strings X (body r)) = Some blob ->
  json_loads X blob = Decoded data ->
  follow items_path data = Some (JArr (before ++ item :: after)) ->
  collect_videos X before [] = Ok collected ->
  is_object item = false ->
  exists msg,
    extract_playlist_links X url w
    = (Raise (mk_exn AttributeError msg),
       mk_world (fs w) (trace w ++ [HttpGet url])).
Proof.
  intros Hget Hstatus Hfind Hjson Hfollow Hbefore Hitem.
  rewrite (extract_on_decoded_blob X url w r blob data) by assumption.
  rewrite try_except_bind. unfold lift at 1.
  rewrite (playlist_items_follow _ _ Hfollow).
  rewrite try_except_bind. unfold lift at 1. cbn [py_iter].
  unfold lift. rewrite collect_videos_app, Hbefore. cbn [collect_videos].
  destruct item; try discriminate Hitem;
    cbn [video_of_item py_get rbind]; eexists;
    now apply uncaught_by_extract.
Qed.

Lemma extract_loses_entries_at_bad_item_witness :
  exists msg,
    extract_playlist_links
      (FakeShapes.serving FakeShapes.stray_text FakeShapes.stray_value)
      (JStr Fake.page_url) Fake.empty_world
    = (Raise (mk_exn AttributeError msg),
       mk_world [] [HttpGet (JStr Fake.page_url)]).
Proof.
  exact (extract_loses_entries_at_bad_item
           (FakeShapes.serving FakeShapes.stray_text FakeShapes.stray_value)
           (JStr Fake.page_url) Fake.empty_world
           (mk_response 200 Fake.page_html) FakeShapes.stray_text
           FakeShapes.stray_value
           [Fake.item_value (Fake.title_value "Song A") "abc123"] []
           (JStr "oops")
           [mk_video (JStr "Song A") "https://www.youtube.com/watch?v=abc123"]
           eq_refl eq_refl eq_refl eq_refl eq_refl eq_refl eq_refl).
Defined.

(** ** The pattern: round trip of the blob *)

Lemma string_append_assoc (a b c : string) : (a ++ b) ++ c = a ++ b ++ c.
Proof. induction a as [|x a IH]; cbn; [reflexivity|now rewrite IH]. Qed.

Lemma re_search_here s :
  Text.re_search s
  = match Text.match_here s with
    | Some g => Some g
    | None => match s with
              | EmptyString => None
              | String _ s' => Text.re_search s'
              end
    end.
Proof. destruct s; reflexivity. Qed.

Lemma drop_app_length p t : Text.drop (String.length p) (p ++ t) = t.
Proof. induction p as [|a p IH]; cbn; auto. Qed.

Lemma lazy_dots_recovers body post :
  no_newline body ->
  Text.contains Text.pattern_tail body = false ->
  Text.lazy_dots Text.pattern_tail (body ++ Text.pattern_tail ++ post)
  = Some body.
Proof.
  induction body as [|c body IH]; intros Hnl Hfree.
  - reflexivity.
  - cbn [Text.contains] in Hfree. apply orb_false_elim in Hfree.
    destruct Hfree as [Hhere Hlater].
    cbn [append Text.lazy_dots].
    assert (Hstart : Text.starts_with Text.pattern_tail
                       (String c (body ++ Text.pattern_tail ++ post)) = false).
    { destruct body as [|c' body]; [|exact Hhere].
      cbn in Hhere |- *. now rewrite andb_false_r. }
    rewrite Hstart.
    assert (Hc : Ascii.eqb c Text.newline = false).
    { apply Ascii.eqb_neq. intros ->. apply Hnl. now left. }
    rewrite Hc, IH; [reflexivity| |exact Hlater].
    intros Hin. apply Hnl. now right.
Qed.

(** X8: a script that starts with the assignment [var ytInitialData = blob;]
    gives its blob back, whatever follows the assignment, provided the blob
    is an object literal on one line that does not itself contain [};]; the
    script tags before it that do not mention the marker are passed over. *)
Theorem assigned_blob_is_recovered
  (skipped rest : list (option string)) (body post : string) :
  forallb (fun tag => negb (has_marker tag)) skipped = true ->
  no_newline body ->
  Text.contains "};" body = false ->
  find_playlist_data
    (skipped
     ++ Some ("var ytInitialData = " ++ ("{" ++ body ++ "}") ++ ";" ++ post)
     :: rest)
  = Some ("{" ++ body ++ "}").
Proof.
  intros Hskipped Hnl Hfree.
  assert (Hmatch :
            Text.re_search
              ("var ytInitialData = " ++ ("{" ++ body ++ "}") ++ ";" ++ post)
            = Some ("{" ++ body ++ "}")).
  { replace ("var ytInitialData = " ++ ("{" ++ body ++ "}") ++ ";" ++ post)
      with (Text.pattern_head ++ body ++ Text.pattern_tail ++ post).
    2:{ unfold Text.pattern_head, Text.pattern_tail.
        change "var ytInitialData = {" with ("var ytInitialData = " ++ "{").
        change "};" with ("}" ++ ";").
        now rewrite <- !string_append_assoc. }
    rewrite re_search_here. unfold Text.match_here.
    rewrite starts_with_app, drop_app_length, lazy_dots_recovers
      by assumption.
    reflexivity. }
  induction skipped as [|tag skipped IH]; cbn [app find_playlist_data].
  - rewrite Hmatch. reflexivity.
  - cbn [forallb] in Hskipped. apply andb_prop in Hskipped.
    destruct Hskipped as [Htag Hskipped].
    destruct tag as [s|]; [|now apply IH].
    cbn [has_marker] in Htag. apply negb_true_iff in Htag.
    rewrite Htag, andb_false_r. now apply IH.
Qed.

Lemma assigned_blob_is_recovered_witness :
  find_playlist_data
    ([None; Some "window.ytcfg = {};"]
     ++ Some ("var ytInitialData = " ++ ("{" ++ "a:{b:1}" ++ "}") ++ ";"
              ++ " var x = {};")
     :: [Some "var ytInitialData = {later};"])
  = Some ("{" ++ "a:{b:1}" ++ "}").
Proof.
  apply (assigned_blob_is_recovered
           [None; Some "window.ytcfg = {};"]
           [Some "var ytInitialData = {later};"] "a:{b:1}" " var x = {};").
  - reflexivity.
  - cbv. intuition discriminate.
  - reflexivity.
Defined.

(** ** Provisioning that does not go through *)

(** X9: [download_ffmpeg] has no handler around the request: when
    [requests.get] raises, the call raises the same exception, having
    printed its announcement and written nothing; the driver then ends with
    that exception, without its failure notice. *)
Theorem download_ffmpeg_propagates_fetch_error
  (X : Externals) (folder : string) (w : world) (e : exn) :
  path_exists (path_join folder "ffmpeg.exe") (fs w) = false ->
  requests_get X (trace w ++ [Print "Downloading FFmpeg..."]) (JStr ffmpeg_url)
  = Raise e ->
  download_ffmpeg X folder w
  = (Raise e,
     mk_world (fs w)
       (trace w ++ [Print "Downloading FFmpeg..."; HttpGet (JStr ffmpeg_url)]))
  /\ (folder = "ffmpeg_bin" ->
      main X w
      = (Raise e,
         mk_world (fs w)
           (trace w ++ [Print "Downloading FFmpeg...";
                        HttpGet (JStr ffmpeg_url)]))).
Proof.
  intros Habsent Hget.
  assert (H : download_ffmpeg X folder w
              = (Raise e,
                 mk_world (fs w)
                   (trace w ++ [Print "Downloading FFmpeg...";
                                HttpGet (JStr ffmpeg_url)]))).
  { unfold download_ffmpeg, bind at 1, os_path_exists. rewrite Habsent.
    unfold bind at 1, print at 1, emit at 1. cbn [fs trace].
    unfold bind at 1, http_get. cbn [fs trace]. rewrite Hget.
    now rewrite <- app_assoc. }
  split; [exact H|]. intros ->. unfold main, bind at 1. now rewrite H.
Qed.

Lemma download_ffmpeg_propagates_fetch_error_witness :
  main FakePages.unreachable Fake.empty_world
  = (Raise (mk_exn RequestException "connection refused"),
     mk_world [] [Print "Downloading FFmpeg..."; HttpGet (JStr ffmpeg_url)]).
Proof.
  exact (proj2 (download_ffmpeg_propagates_fetch_error
                  FakePages.unreachable "ffmpeg_bin" Fake.empty_world
                  (mk_exn RequestException "connection refused")
                  eq_refl eq_refl)
               eq_refl).
Defined.

Lemma lookup_written_file name content d d' :
  write_file [name] content d = Some d' ->
  lookup [name] d' = Some (File content).
Proof.
  cbn [write_file lookup].
  destruct (assoc name d) as [[c|sub]|] eqn:Hname; intros H;
    [|discriminate H|]; injection H as <-.
  - now rewrite assoc_assoc_set, String.eqb_refl.
  - now rewrite (assoc_app_miss _ _ _ _ Hname), String.eqb_refl.
Qed.

(** X10: the status of the response is not looked at and the cleanup comes
    after the extraction: when what was fetched is no zip archive (an error
    page, say), [download_ffmpeg] raises [BadZipFile] and leaves
    [ffmpeg.zip], holding the body of the response, in the working
    directory. *)
Theorem download_ffmpeg_leaves_bad_archive
  (X : Externals) (folder : string) (w : world) (r : response) (d : dir) :
  path_exists (path_join folder "ffmpeg.exe") (fs w) = false ->
  requests_get X (trace w ++ [Print "Downloading FFmpeg..."]) (JStr ffmpeg_url)
  = Ok r ->
  write_file ["ffmpeg.zip"] (body r) (fs w) = Some d ->
  zip_members X (body r) = None ->
  download_ffmpeg X folder w
  = (Raise (mk_exn BadZipFile "File is not a zip file"),
     mk_world d
       (trace w ++ [ Print "Downloading FFmpeg...";
                     HttpGet (JStr ffmpeg_url);
                     OpenWrite "ffmpeg.zip";
                     Print "Extracting FFmpeg...";
                     ExtractAll "ffmpeg.zip" folder ]))
  /\ resolve "ffmpeg.zip" d = Some (File (body r)).
Proof.
  intros Habsent Hget Hwrite Hzip.
  assert (Hfile : resolve "ffmpeg.zip" d = Some (File (body r))).
  { exact (lookup_written_file _ _ _ _ Hwrite). }
  split; [|exact Hfile].
  unfold download_ffmpeg, bind at 1, os_path_exists. rewrite Habsent.
  unfold bind at 1, print at 1, emit at 1. cbn [fs trace].
  unfold bind at 1, http_get. cbn [fs trace]. rewrite Hget.
  unfold bind at 1, open_write, bind at 1, emit at 1. cbn [fs trace].
  change (components ffmpeg_zip) with ["ffmpeg.zip"]. rewrite Hwrite.
  unfold bind at 1, print at 1, emit at 1. cbn [fs trace].
  unfold bind at 1, zip_extractall, bind at 1, emit at 1. cbn [fs trace].
  change ffmpeg_zip with "ffmpeg.zip". rewrite Hfile, Hzip.
  now rewrite <- !app_assoc.
Qed.

Lemma download_ffmpeg_leaves_bad_archive_witness :
  resolve "ffmpeg.zip"
    (fs (snd (download_ffmpeg FakeFailures.error_page "ffmpeg_bin"
                Fake.empty_world)))
  = Some (File "Not Found").
Proof.
  destruct (download_ffmpeg_leaves_bad_archive
              FakeFailures.error_page "ffmpeg_bin" Fake.empty_world
              (mk_response 404 "Not Found") [("ffmpeg.zip", File "Not Found")]
              eq_refl eq_refl eq_refl eq_refl) as [-> H].
  exact H.
Defined.

(** ** The configuration, beyond the two handled failures *)

(** X11: [read_json_file] only handles a missing file and undecodable JSON:
    when the path names a directory, opening it raises an [OSError] other
    than [FileNotFoundError], and the function raises it to its caller. *)
Theorem read_json_file_raises_on_directory
  (X : Externals) (file_name : string) (w : world)
  (entries : list (string * node)) :
  resolve file_name (fs w) = Some (Dir entries) ->
  read_json_file X file_name w
  = (Raise (mk_exn IsADirectoryError file_name),
     mk_world (fs w) (trace w ++ [OpenRead file_name]))
  /\ isinstance (mk_exn IsADirectoryError file_name) OSError = true
  /\ isinstance (mk_exn IsADirectoryError file_name) FileNotFoundError = false.
Proof.
  intros Hdir. split; [|split; reflexivity].
  unfold read_json_file, try_except, bind at 1, open_read, bind, emit.
  cbn [fs trace]. now rewrite Hdir.
Qed.

Lemma read_json_file_raises_on_directory_witness :
  read_json_file FakeRun.studio "ffmpeg_bin" FakeFailures.ready_without_config
  = (Raise (mk_exn IsADirectoryError "ffmpeg_bin"),
     mk_world (fs FakeFailures.ready_without_config) [OpenRead "ffmpeg_bin"]).
Proof.
  exact (proj1 (read_json_file_raises_on_directory
                  FakeRun.studio "ffmpeg_bin"
                  FakeFailures.ready_without_config
                  [("ffmpeg.exe", File "MZ")] eq_refl)).
Defined.

Lemma main_after_provisioning (X : Externals) (w w1 : world) (p : string) :
  download_ffmpeg X "ffmpeg_bin" w = (Ok (Some p), w1) ->
  p <> "" ->
  main X w
  = (playlist_data <- read_json_file X "playlists.json" ;;
     playlists <- lift (py_iter playlist_data) ;;
     process_playlists X p playlists) w1.
Proof.
  intros Hprov Hp. unfold main, bind at 1. rewrite Hprov.
  destruct (String.eqb_spec p "") as [->|_]; [congruence|reflexivity].
Qed.

(** X12: the configuration is not checked to be a list.  When it decodes
    to anything else that is not empty (an object with members, a number, a
    boolean, [null], a non-empty string), the driver ends with a
    [TypeError] right after reading the file: a number cannot be iterated,
    and the keys of an object or the characters of a string cannot be
    indexed by ['link']. *)
Theorem main_fails_on_config_that_is_no_list
  (X : Externals) (w w1 : world) (p text : string) (v : json) :
  download_ffmpeg X "ffmpeg_bin" w = (Ok (Some p), w1) ->
  p <> "" ->
  resolve "playlists.json" (fs w1) = Some (File text) ->
  json_loads X text = Decoded v ->
  match v with
  | JArr _ => False
  | JObj [] => False
  | JStr EmptyString => False
  | _ => True
  end ->
  exists msg,
    main X w
    = (Raise (mk_exn TypeError msg),
       mk_world (fs w1) (trace w1 ++ [OpenRead "playlists.json"])).
Proof.
  intros Hprov Hp Hfile Hjson Hshape.
  rewrite (main_after_provisioning X w w1 p Hprov Hp).
  unfold bind at 1.
  rewrite (read_json_file_decoded X "playlists.json" w1 text v Hfile Hjson).
  unfold bind at 1, lift.
  destruct v as [| | | |s|items|members]; try contradiction;
    try (cbn [py_iter]; eexists; reflexivity).
  - destruct s as [|c s]; [contradiction|]. eexists. reflexivity.
  - destruct members as [|[k x] members]; [contradiction|].
    eexists. reflexivity.
Qed.

Lemma main_fails_on_config_that_is_no_list_witness :
  exists msg,
    main FakeFailures.object_config
      (FakeFailures.ready FakeFailures.object_config_text)
    = (Raise (mk_exn TypeError msg),
       mk_world (fs (FakeFailures.ready FakeFailures.object_config_text))
         [ Print "FFmpeg is already downloaded and available.";
           OpenRead "playlists.json" ]).
Proof.
  exact (main_fails_on_config_that_is_no_list
           FakeFailures.object_config
           (FakeFailures.ready FakeFailures.object_config_text)
           (mk_world (fs (FakeFailures.ready FakeFailures.object_config_text))
              [Print "FFmpeg is already downloaded and available."])
           "ffmpeg_bin" FakeFailures.object_config_text
           FakeFailures.object_config_value
           eq_refl ltac:(discriminate) eq_refl eq_refl I).
Defined.

Lemma blocked_single name d : blocked [name] d = false.
Proof. cbn [blocked]. now destruct (assoc name d) as [[c|sub]|]. Qed.

(** X13: with the binary in place, a configuration file that is missing
    ([FileNotFoundError]) or whose content is text but not valid JSON
    ([JSONDecodeError]) costs nothing but a printed line: the run ends
    normally, having fetched no page, made no folder and called no
    downloader. *)
Theorem main_ends_quietly_without_config
  (X : Externals) (w w1 : world) (p : string) :
  download_ffmpeg X "ffmpeg_bin" w = (Ok (Some p), w1) ->
  p <> "" ->
  resolve "playlists.json" (fs w1) = None
  \/ (exists text msg,
        resolve "playlists.json" (fs w1) = Some (File text)
        /\ json_loads X text = DecodeError msg) ->
  exists line,
    main X w
    = (Ok tt,
       mk_world (fs w1)
         (trace w1 ++ [OpenRead "playlists.json"; Print line])).
Proof.
  intros Hprov Hp Hconfig.
  rewrite (main_after_provisioning X w w1 p Hprov Hp).
  unfold bind at 1, read_json_file, try_except, bind at 1, open_read,
    bind at 1, emit at 1.
  cbn [fs trace].
  destruct Hconfig as [Hnone | (text & msg & Hfile & Hjson)].
  - rewrite Hnone. unfold missing_error.
    change (components "playlists.json") with ["playlists.json"].
    rewrite blocked_single. eexists. cbn. now rewrite <- app_assoc.
  - rewrite Hfile. unfold json_load. rewrite Hjson.
    eexists. cbn. now rewrite <- app_assoc.
Qed.

Lemma main_ends_quietly_without_config_witness :
  exists line,
    main FakeRun.studio FakeFailures.ready_without_config
    = (Ok tt,
       mk_world (fs FakeFailures.ready_without_config)
         [ Print "FFmpeg is already downloaded and available.";
           OpenRead "playlists.json"; Print line ]).
Proof.
  exact (main_ends_quietly_without_config
           FakeRun.studio FakeFailures.ready_without_config
           (mk_world (fs FakeFailures.ready_without_config)
              [Print "FFmpeg is already downloaded and available."])
           "ffmpeg_bin" eq_refl ltac:(discriminate) (or_introl eq_refl)).
Defined.

(** ** The fetch functions at their edges *)

(** X14: the loops catch [Exception] and nothing wider.  When the
    downloader raises something that does not derive from [Exception] (a
    [KeyboardInterrupt]), the loop stops there: the exception goes to the
    caller, no error line is printed and the remaining entries are not
    attempted. *)
Theorem fetch_stops_at_base_exception
  (X : Externals) (video : VideoEntry) (rest : list VideoEntry)
  (p folder : string) (w : world) :
  let t := format_value X (title video) in
  (forall e d,
      ydl_download X
        (trace w ++ [Print ("Downloading audio: " ++ t ++ " from "
                            ++ link video)])
        (audio_opts folder p t) (link video) (fs w) = (Raise e, d) ->
      isinstance e Exception = false ->
      download_audio_loop X (video :: rest) p folder w
      = (Raise e,
         mk_world d
           (trace w ++ [ Print ("Downloading audio: " ++ t ++ " from "
                                ++ link video);
                         Download (audio_opts folder p t) (link video) ])))
  /\ (forall e d,
      ydl_download X
        (trace w ++ [Print ("Downloading video: " ++ t ++ " from "
                            ++ link video)])
        (video_opts folder p t) (link video) (fs w) = (Raise e, d) ->
      isinstance e Exception = false ->
      download_video_loop X (video :: rest) p folder w
      = (Raise e,
         mk_world d
           (trace w ++ [ Print ("Downloading video: " ++ t ++ " from "
                                ++ link video);
                         Download (video_opts folder p t) (link video) ]))).
Proof.
  intros t. split; intros e d Hdl Hbase.
  - cbn [download_audio_loop]. fold t.
    unfold bind at 1, print at 1, emit at 1. cbn [fs trace].
    unfold bind at 1, try_except, bind at 1, youtube_dl. cbn [fs trace].
    rewrite Hdl. cbn [find fst snd]. rewrite Hbase.
    now rewrite <- app_assoc.
  - cbn [download_video_loop]. fold t.
    unfold bind at 1, print at 1, emit at 1. cbn [fs trace].
    unfold bind at 1, try_except, bind at 1, youtube_dl. cbn [fs trace].
    rewrite Hdl. cbn [find fst snd]. rewrite Hbase.
    now rewrite <- app_assoc.
Qed.

Lemma fetch_stops_at_base_exception_witness :
  downloads
    (trace (snd (download_audio_loop FakeFailures.interrupted FakeTube.three
                   "ffmpeg_bin" "music" Fake.empty_world)))
  = ["https://www.youtube.com/watch?v=one"].
Proof.
  unfold FakeTube.three.
  rewrite (proj1 (fetch_stops_at_base_exception
                    FakeFailures.interrupted
                    (mk_video (JStr "One") "https://www.youtube.com/watch?v=one")
                    [ mk_video (JStr "Two")
                        "https://www.youtube.com/watch?v=two";
                      mk_video (JStr "Three")
                        "https://www.youtube.com/watch?v=three" ]
                    "ffmpeg_bin" "music" Fake.empty_world)
                 (mk_exn KeyboardInterrupt "") [] eq_refl eq_refl).
  reflexivity.
Defined.

Lemma folder_exists_once_made (folder : string) (d d' : dir) :
  folder <> "" ->
  makedirs (components folder) d = Some d' ->
  path_exists folder d' = true.
Proof.
  intros Hne Hmk. unfold path_exists, resolve.
  destruct (String.eqb_spec folder "") as [->|_]; [congruence|].
  pose proof (makedirs_makes_directories _ _ _ (components folder) Hmk
                (is_prefix_refl _)) as Hkind.
  unfold kind_at in Hkind.
  now destruct (lookup (components folder) d').
Qed.

Lemma ensure_folder_ok_cases (folder : string) (w w1 : world) :
  ensure_folder folder w = (Ok tt, w1) -> path_exists folder (fs w1) = true.
Proof.
  unfold ensure_folder, bind at 1, os_path_exists.
  destruct (path_exists folder (fs w)) eqn:Hex.
  - cbn. now intros [= <-].
  - unfold os_makedirs, bind, emit. cbn [fs trace].
    unfold path_exists in Hex.
    destruct (resolve folder (fs w)); [discriminate|].
    destruct (String.eqb_spec folder "") as [->|Hne]; [discriminate|].
    destruct (makedirs (components folder) (fs w)) as [d|] eqn:Hmk;
      [|discriminate].
    intros [= <-]. cbn [fs]. now apply folder_exists_once_made with (fs w).
Qed.

(** X15: making the output folder happens at most once.  When something
    already exists at the path (a directory, or even a regular file), the
    fetch functions do not try to make it, and with no entries they change
    nothing at all; so a call with no entries that went through leaves a
    world in which the same call is a no-op. *)
Theorem fetch_with_no_entries_settles
  (X : Externals) (p folder : string) (w : world) :
  (path_exists folder (fs w) = true ->
   download_audio X [] p folder w = (Ok tt, w)
   /\ download_video X [] p folder w = (Ok tt, w))
  /\ (forall w1,
        download_audio X [] p folder w = (Ok tt, w1) ->
        download_audio X [] p folder w1 = (Ok tt, w1))
  /\ (forall w1,
        download_video X [] p folder w = (Ok tt, w1) ->
        download_video X [] p folder w1 = (Ok tt, w1)).
Proof.
  assert (Hnoop : forall w0, path_exists folder (fs w0) = true ->
                    ensure_folder folder w0 = (Ok tt, w0)).
  { intros w0 H. unfold ensure_folder, bind, os_path_exists. now rewrite H. }
  assert (Haudio : forall w0, download_audio X [] p folder w0
                              = ensure_folder folder w0).
  { intros w0. rewrite download_audio_unfold. unfold bind.
    now destruct (ensure_folder folder w0) as [[[]|e] w']. }
  assert (Hvideo : forall w0, download_video X [] p folder w0
                              = ensure_folder folder w0).
  { intros w0. rewrite download_video_unfold. unfold bind.
    now destruct (ensure_folder folder w0) as [[[]|e] w']. }
  split; [|split].
  - intros H. rewrite Haudio, Hvideo. split; now apply Hnoop.
  - intros w1 H. rewrite Haudio in *. apply Hnoop.
    now apply ensure_folder_ok_cases with w.
  - intros w1 H. rewrite Hvideo in *. apply Hnoop.
    now apply ensure_folder_ok_cases with w.
Qed.

Lemma fetch_with_no_entries_settles_witness :
  download_audio FakeTube.flaky [] "ffmpeg_bin" "music"
    (mk_world [("music", Dir [])] [MakeDirs "music"])
  = (Ok tt, mk_world [("music", Dir [])] [MakeDirs "music"])
  /\ download_audio FakeTube.flaky [] "ffmpeg_bin" "playlists.json"
       FakeRun.configured
     = (Ok tt, FakeRun.configured).
Proof.
  split.
  - exact (proj1 (proj2 (fetch_with_no_entries_settles
                           FakeTube.flaky "ffmpeg_bin" "music"
                           Fake.empty_world))
                 (mk_world [("music", Dir [])] [MakeDirs "music"]) eq_refl).
  - exact (proj1 (proj1 (fetch_with_no_entries_settles
                           FakeTube.flaky "ffmpeg_bin" "playlists.json"
                           FakeRun.configured)
                        eq_refl)).
Defined.

(** ** The driver's loop *)

(** X16: a playlist whose page cannot be fetched costs two printed lines and
    the request: with its output folder in place, [process_playlist] returns
    normally without calling the downloader, and the loop goes on to the
    next descriptor. *)
Theorem unreachable_playlist_is_skipped
  (X : Externals) (p : string) (members : list (string * json)) (url : json)
  (rest : list json) (w : world) (e : exn) :
  let flag := match assoc "with_video" members with
              | Some f => f
              | None => JBool false
              end in
  let line := "Processing playlist: " ++ format_value X url
              ++ " | With video: " ++ format_value X flag in
  let w' := mk_world (fs w)
              (trace w ++ [ Print line; HttpGet url;
                            Print ("Error fetching the webpage: "
                                   ++ exn_msg e) ]) in
  assoc "link" members = Some url ->
  requests_get X (trace w ++ [Print line]) url = Raise e ->
  isinstance e RequestException = true ->
  path_exists (if truthy flag then "videos" else "music") (fs w) = true ->
  process_playlist X p (JObj members) w = (Ok tt, w')
  /\ process_playlists X p (JObj members :: rest) w
     = process_playlists X p rest w'.
Proof.
  intros flag line w' Hlink Hget He Hfolder.
  assert (Hone : process_playlist X p (JObj members) w = (Ok tt, w')).
  { unfold process_playlist, bind at 1, lift at 1. cbn [py_getitem].
    rewrite Hlink. unfold bind at 1, lift at 1. cbn [py_get]. fold flag.
    unfold bind at 1, print at 1, emit at 1. cbn [fs trace]. fold line.
    unfold bind at 1, extract_playlist_links, try_except, bind at 1, http_get.
    cbn [fs trace]. rewrite Hget. cbn [find fst snd]. rewrite He.
    unfold bind at 1, print at 1, emit at 1, ret. cbn [fs trace snd].
    destruct (truthy flag).
    - rewrite download_video_unfold. unfold bind, ensure_folder, bind,
        os_path_exists. cbn [fs trace]. rewrite Hfolder.
      unfold w'. now rewrite <- !app_assoc.
    - rewrite download_audio_unfold. unfold bind, ensure_folder, bind,
        os_path_exists. cbn [fs trace]. rewrite Hfolder.
      unfold w'. now rewrite <- !app_assoc. }
  split; [exact Hone|].
  cbn [process_playlists]. unfold bind at 1. now rewrite Hone.
Qed.

Lemma unreachable_playlist_is_skipped_witness :
  process_playlist FakePages.unreachable "ffmpeg_bin"
    (JObj [("link", JStr Fake.page_url)])
    (FakeFailures.ready_with_folders FakeRun.config_text)
  = (Ok tt,
     mk_world (fs (FakeFailures.ready_with_folders FakeRun.config_text))
       [ Print "Processing playlist: https://x/playlist1 | With video: False";
         HttpGet (JStr Fake.page_url);
         Print "Error fetching the webpage: connection refused" ]).
Proof.
  exact (proj1 (unreachable_playlist_is_skipped
                  FakePages.unreachable "ffmpeg_bin"
                  [("link", JStr Fake.page_url)] (JStr Fake.page_url) []
                  (FakeFailures.ready_with_folders FakeRun.config_text)
                  (mk_exn RequestException "connection refused")
                  eq_refl eq_refl eq_refl eq_refl)).
Defined.

(** X17: the loop over the playlists has no handler of its own: when
    processing one descriptor raises (an [AttributeError] out of the
    extraction, say), the loop ends with that exception and the descriptors
    after it are never processed. *)
Theorem driver_stops_at_first_exception
  (X : Externals) (p : string) (before after : list json) (playlist : json)
  (w w1 w2 : world) (e : exn) :
  process_playlists X p before w = (Ok tt, w1) ->
  process_playlist X p playlist w1 = (Raise e, w2) ->
  process_playlists X p (before ++ playlist :: after) w = (Raise e, w2).
Proof.
  intros Hbefore Hone. rewrite process_playlists_app, Hbefore.
  cbn [process_playlists]. unfold bind at 1. now rewrite Hone.
Qed.

Lemma driver_stops_at_first_exception_witness :
  let X := FakeShapes.serving FakeShapes.null_contents_text
             FakeShapes.null_contents_value in
  let d := JObj [("link", JStr Fake.page_url)] in
  process_playlists X "ffmpeg_bin" ([] ++ d :: [d; d]) Fake.empty_world
  = (Raise (mk_exn AttributeError
              "'NoneType' object has no attribute 'get'"),
     mk_world []
       [ Print "Processing playlist: https://x/playlist1 | With video: False";
         HttpGet (JStr Fake.page_url) ]).
Proof.
  exact (driver_stops_at_first_exception
           (FakeShapes.serving FakeShapes.null_contents_text
              FakeShapes.null_contents_value)
           "ffmpeg_bin" [] [JObj [("link", JStr Fake.page_url)];
                            JObj [("link", JStr Fake.page_url)]]
           (JObj [("link", JStr Fake.page_url)])
           Fake.empty_world Fake.empty_world _ _ eq_refl eq_refl).
Defined.

(** ** Paths as strings and paths as names *)

Lemma split_slash_nonempty s : split_slash s <> [].
Proof.
  destruct s as [|c s]; cbn [split_slash]; [discriminate|].
  destruct (Ascii.eqb c "/"); [discriminate|].
  destruct (split_slash s); discriminate.
Qed.

Lemma split_slash_app_slash a b :
  split_slash (a ++ String "/" b) = (split_slash a ++ split_slash b)%list.
Proof.
  induction a as [|c a IH]; cbn [append split_slash].
  - reflexivity.
  - destruct (Ascii.eqb c "/"); [now rewrite IH|].
    rewrite IH. pose proof (split_slash_nonempty a) as Hne.
    now destruct (split_slash a).
Qed.

Lemma components_app_slash a b :
  components (a ++ String "/" b) = (components a ++ components b)%list.
Proof.
  unfold components. now rewrite split_slash_app_slash, filter_app.
Qed.

Lemma contains_slash_cons c s :
  Text.contains "/" (String c s) = Ascii.eqb "/" c || Text.contains "/" s.
Proof. cbn. now rewrite andb_true_r. Qed.

Lemma split_slash_slashless s :
  Text.contains "/" s = false -> split_slash s = [s].
Proof.
  induction s as [|c s IH]; [reflexivity|].
  rewrite contains_slash_cons. intros H. apply orb_false_elim in H.
  destruct H as [Hc Hs]. cbn [split_slash].
  rewrite Ascii.eqb_sym, Hc, (IH Hs). reflexivity.
Qed.

Lemma good_name_parts s :
  good_name s = true ->
  s <> "" /\ s <> "." /\ Text.contains "/" s = false.
Proof.
  unfold good_name. intros H.
  apply andb_prop in H. destruct H as [H Hslash].
  apply andb_prop in H. destruct H as [He Hd].
  apply negb_true_iff in He, Hd, Hslash.
  apply String.eqb_neq in He, Hd. auto.
Qed.

Lemma components_good_name s : good_name s = true -> components s = [s].
Proof.
  intros H. destruct (good_name_parts s H) as (He & Hd & Hslash).
  unfold components. rewrite (split_slash_slashless s Hslash). cbn [filter].
  apply String.eqb_neq in He, Hd. now rewrite He, Hd.
Qed.

Lemma split_slash_parts s :
  Forall (fun c => Text.contains "/" c = false) (split_slash s).
Proof.
  induction s as [|c s IH]; cbn [split_slash]; [now repeat constructor|].
  destruct (Ascii.eqb c "/") eqn:Hc; [now constructor|].
  destruct (split_slash s) as [|h t]; [repeat constructor|].
  - rewrite contains_slash_cons, Ascii.eqb_sym, Hc. reflexivity.
  - inversion IH; subst. constructor; [|assumption].
    rewrite contains_slash_cons, Ascii.eqb_sym, Hc. assumption.
Qed.

(** Every name [components] gives is one an entry can have. *)
Lemma components_are_good path : Forall (fun c => good_name c = true) (components path).
Proof.
  unfold components. apply Forall_forall. intros c Hin.
  apply filter_In in Hin. destruct Hin as [Hin Hkeep].
  pose proof (split_slash_parts path) as Hparts.
  rewrite Forall_forall in Hparts. specialize (Hparts c Hin).
  apply negb_true_iff, orb_false_elim in Hkeep. destruct Hkeep as [He Hd].
  unfold good_name. now rewrite He, Hd, Hparts.
Qed.

Lemma ends_with_slash_cons c s :
  ends_with_slash (String c s)
  = match s with
    | EmptyString => Ascii.eqb c "/"
    | String _ _ => ends_with_slash s
    end.
Proof.
  unfold ends_with_slash. cbn [list_ascii_of_string rev].
  destruct s as [|c' s]; [reflexivity|].
  cbn [list_ascii_of_string rev].
  destruct (rev (list_ascii_of_string s) ++ [c'])%list as [|x t] eqn:Hrev;
    [now destruct (rev (list_ascii_of_string s))|reflexivity].
Qed.

Lemma ends_with_slash_split s :
  ends_with_slash s = true -> exists s', s = s' ++ "/".
Proof.
  induction s as [|c s IH]; [discriminate|].
  rewrite ends_with_slash_cons. destruct s as [|c' s].
  - intros H. apply Ascii.eqb_eq in H. subst c. now exists "".
  - intros H. destruct (IH H) as [s' Hs']. exists (String c s').
    cbn [append]. now rewrite <- Hs'.
Qed.

(** [os.path.join] with the name of an entry adds that name to the names of
    the path. *)
Lemma components_path_join root name :
  good_name name = true ->
  components (path_join root name) = (components root ++ [name])%list.
Proof.
  intros Hgood. destruct (good_name_parts name Hgood) as (He & _ & Hslash).
  unfold path_join.
  assert (Hrel : Text.starts_with "/" name = false).
  { destruct name as [|c name]; [reflexivity|].
    rewrite contains_slash_cons in Hslash. apply orb_false_elim in Hslash.
    cbn [Text.starts_with]. now rewrite (proj1 Hslash). }
  rewrite Hrel.
  destruct (String.eqb_spec root "") as [->|Hroot];
    [exact (components_good_name name Hgood)|].
  cbn [orb]. destruct (ends_with_slash root) eqn:Hend.
  - destruct (ends_with_slash_split root Hend) as [r' ->].
    rewrite string_append_assoc. cbn [append].
    rewrite !components_app_slash, (components_good_name name Hgood).
    change (components "") with (@nil string). now rewrite app_nil_r.
  - cbn [append].
    now rewrite components_app_slash, (components_good_name name Hgood).
Qed.

Lemma path_join_nonempty root name :
  good_name name = true -> path_join root name <> "".
Proof.
  intros Hgood. destruct (good_name_parts name Hgood) as (He & _ & _).
  unfold path_join. destruct (Text.starts_with "/" name); [exact He|].
  destruct (_ || _); destruct root, name; cbn; congruence.
Qed.

(** ** Tidy file trees *)

Lemma tidy_nil : tidy [].
Proof. split; [constructor|exact I]. Qed.

Lemma tidy_cons name child l :
  tidy ((name, child) :: l)
  <-> (~ In name (map fst l) /\ good_name name = true
       /\ tidy_node child /\ tidy l).
Proof.
  unfold tidy. cbn [tidy_node map fst]. rewrite NoDup_cons_iff. tauto.
Qed.

Lemma assoc_none_iff {A : Type} (k : string) (d : list (string * A)) :
  assoc k d = None <-> ~ In k (map fst d).
Proof.
  induction d as [|[k' v] d IH]; cbn [assoc map fst In]; [tauto|].
  destruct (String.eqb_spec k k') as [->|Hne].
  - split; [discriminate|]. intros H. exfalso. apply H. now left.
  - rewrite IH. split; [intros H [Heq|Hin]; [congruence|auto]|tauto].
Qed.

Lemma in_assoc_set {A : Type} (x k : string) (v : A) (d : list (string * A)) :
  In x (map fst (assoc_set k v d)) -> x = k \/ In x (map fst d).
Proof.
  induction d as [|[k' v'] d IH]; cbn [assoc_set map fst In].
  - intros [H|[]]; auto.
  - destruct (String.eqb_spec k k') as [->|Hne]; cbn [map fst In];
      intros [H|H]; auto.
    destruct (IH H); auto.
Qed.

Lemma assoc_set_absent {A : Type} (k : string) (v : A) (d : list (string * A)) :
  assoc k d = None -> assoc_set k v d = (d ++ [(k, v)])%list.
Proof.
  induction d as [|[k' v'] d IH]; cbn [assoc assoc_set app]; [reflexivity|].
  destruct (String.eqb k k'); [discriminate|]. intros H. now rewrite IH.
Qed.

Lemma tidy_assoc d : forall k n,
  tidy d -> assoc k d = Some n -> tidy_node n.
Proof.
  induction d as [|[k' v] d IH]; intros k n Ht Hk; cbn [assoc] in Hk;
    [discriminate|].
  apply tidy_cons in Ht. destruct Ht as (_ & _ & Hv & Hd).
  destruct (String.eqb k k'); [now injection Hk as <-|eauto].
Qed.

Lemma tidy_assoc_set d : forall k v,
  tidy d -> good_name k = true -> tidy_node v -> tidy (assoc_set k v d).
Proof.
  induction d as [|[k' v'] d IH]; intros k v Ht Hk Hv; cbn [assoc_set].
  - apply tidy_cons. cbn. auto using tidy_nil.
  - apply tidy_cons in Ht. destruct Ht as (Hnew & Hk' & Hv' & Hd).
    destruct (String.eqb_spec k k') as [->|Hne]; apply tidy_cons.
    + auto.
    + split; [|auto].
      intros Hin. apply in_assoc_set in Hin. destruct Hin; [congruence|auto].
Qed.

Lemma tidy_app_single d k v :
  tidy d -> assoc k d = None -> good_name k = true -> tidy_node v ->
  tidy (d ++ [(k, v)])%list.
Proof.
  intros Ht Hk Hg Hv. rewrite <- (assoc_set_absent k v d Hk).
  now apply tidy_assoc_set.
Qed.

Lemma in_assoc_remove {A : Type} (x k : string) (d : list (string * A)) :
  In x (map fst (assoc_remove k d)) -> In x (map fst d).
Proof.
  induction d as [|[k' v'] d IH]; cbn [assoc_remove map fst In]; [auto|].
  destruct (String.eqb k k'); cbn [map fst In]; [auto|].
  intros [H|H]; auto.
Qed.

Lemma tidy_assoc_remove d k : tidy d -> tidy (assoc_remove k d).
Proof.
  induction d as [|[k' v'] d IH]; intros Ht; cbn [assoc_remove];
    [exact Ht|].
  apply tidy_cons in Ht. destruct Ht as (Hnew & Hk' & Hv' & Hd).
  destruct (String.eqb k k'); [exact Hd|]. apply tidy_cons.
  split; [|auto]. intros Hin. apply Hnew. now apply in_assoc_remove in Hin.
Qed.

Lemma tidy_in d : forall name child,
  tidy d -> In (name, child) d ->
  good_name name = true /\ tidy_node child /\ assoc name d = Some child.
Proof.
  induction d as [|[k v] d IH]; intros name child Ht Hin; [contradiction|].
  apply tidy_cons in Ht. destruct Ht as (Hnew & Hk & Hv & Hd).
  cbn [assoc]. destruct Hin as [[= -> ->]|Hin].
  - now rewrite String.eqb_refl.
  - destruct (IH _ _ Hd Hin) as (Hg & Hc & Ha).
    destruct (String.eqb_spec name k) as [->|Hne]; [|auto].
    exfalso. apply Hnew. apply in_map_iff. now exists (k, child).
Qed.

Lemma makedirs_tidy p : forall d d',
  Forall (fun c => good_name c = true) p ->
  tidy d -> makedirs p d = Some d' -> tidy d'.
Proof.
  induction p as [|name p IH]; intros d d' Hp Ht Hmk; cbn [makedirs] in Hmk.
  - now injection Hmk as <-.
  - inversion Hp as [|? ? Hname Hrest]; subst.
    destruct (assoc name d) as [[c|sub]|] eqn:Hassoc; [discriminate| |].
    + destruct (makedirs p sub) as [sub'|] eqn:Hsub; [|discriminate].
      injection Hmk as <-. apply tidy_assoc_set; auto.
      apply (IH sub sub' Hrest); [|exact Hsub].
      exact (tidy_assoc d name (Dir sub) Ht Hassoc).
    + destruct (makedirs p []) as [sub'|] eqn:Hsub; [|discriminate].
      injection Hmk as <-. apply tidy_app_single; auto.
      exact (IH [] sub' Hrest tidy_nil Hsub).
Qed.

Lemma write_file_tidy p content : forall d d',
  Forall (fun c => good_name c = true) p ->
  tidy d -> write_file p content d = Some d' -> tidy d'.
Proof.
  induction p as [|name p IH]; intros d d' Hp Ht Hw; cbn [write_file] in Hw;
    [discriminate|].
  inversion Hp as [|? ? Hname Hrest]; subst.
  destruct p as [|name' p].
  - destruct (assoc name d) as [[c|sub]|] eqn:Hassoc;
      [|discriminate|]; injection Hw as <-.
    + apply tidy_assoc_set; auto. exact I.
    + apply tidy_app_single; auto. exact I.
  - destruct (assoc name d) as [[c|sub]|] eqn:Hassoc; try discriminate.
    destruct (write_file (name' :: p) content sub) as [sub'|] eqn:Hsub;
      [|discriminate].
    injection Hw as <-. apply tidy_assoc_set; auto.
    apply (IH sub sub' Hrest); [|exact Hsub].
    exact (tidy_assoc d name (Dir sub) Ht Hassoc).
Qed.

Lemma remove_tidy p : forall d d',
  Forall (fun c => good_name c = true) p ->
  tidy d -> remove p d = Some d' -> tidy d'.
Proof.
  induction p as [|name p IH]; intros d d' Hp Ht Hr; cbn [remove] in Hr;
    [discriminate|].
  inversion Hp as [|? ? Hname Hrest]; subst.
  destruct p as [|name' p].
  - destruct (assoc name d) as [[c|sub]|]; try discriminate.
    injection Hr as <-. now apply tidy_assoc_remove.
  - destruct (assoc name d) as [[c|sub]|] eqn:Hassoc; try discriminate.
    destruct (remove (name' :: p) sub) as [sub'|] eqn:Hsub; [|discriminate].
    injection Hr as <-. apply tidy_assoc_set; auto.
    apply (IH sub sub' Hrest); [|exact Hsub].
    exact (tidy_assoc d name (Dir sub) Ht Hassoc).
Qed.

Lemma Forall_removelast {A : Type} (P : A -> Prop) (l : list A) :
  Forall P l -> Forall P (removelast l).
Proof.
  induction 1 as [|x l Hx Hl IH]; cbn [removelast]; [constructor|].
  destruct l; [constructor|]. now constructor.
Qed.

Lemma member_components_are_good name :
  Forall (fun c => good_name c = true) (member_components name).
Proof.
  unfold member_components. apply Forall_forall. intros c Hin.
  apply filter_In in Hin. destruct Hin as [Hin _].
  pose proof (components_are_good name) as H.
  rewrite Forall_forall in H. now apply H.
Qed.

Lemma extract_members_tidy target ms : forall d,
  Forall (fun c => good_name c = true) target ->
  tidy d -> tidy (fst (extract_members target ms d)).
Proof.
  induction ms as [|m ms IH]; intros d Htarget Ht; cbn [extract_members];
    [exact Ht|].
  destruct (extract_member target m d) as [d'|] eqn:Hm; [|exact Ht].
  apply IH; [exact Htarget|].
  assert (Hpath : forall name,
             Forall (fun c => good_name c = true)
                    (target ++ member_components name)%list).
  { intros name. apply Forall_app. split; [exact Htarget|].
    apply member_components_are_good. }
  destruct m as [name content|name]; cbn [extract_member] in Hm.
  - destruct (makedirs _ d) as [d1|] eqn:Hmk; [|discriminate].
    apply (write_file_tidy _ content d1 d' (Hpath name)); [|exact Hm].
    apply (makedirs_tidy _ d d1 (Forall_removelast _ _ (Hpath name)) Ht Hmk).
  - exact (makedirs_tidy _ d d' (Hpath name) Ht Hm).
Qed.

(** ** The walk and what it finds *)

Lemma node_entries_ind (P : node -> Prop) :
  (forall content, P (File content)) ->
  (forall entries, Forall (fun e => P (snd e)) entries -> P (Dir entries)) ->
  forall n, P n.
Proof.
  intros Hfile Hdir.
  fix IH 1. intros [content|entries]; [apply Hfile|].
  apply Hdir. induction entries as [|[name child] entries IHentries];
    constructor; [apply IH|exact IHentries].
Qed.

Lemma walk_node_dir root entries :
  walk_node root (Dir entries)
  = (root, dir_names entries, file_names entries)
    :: flat_map (fun e => walk_node (path_join root (fst e)) (snd e)) entries.
Proof.
  cbn [walk_node]. f_equal.
  induction entries as [|[name child] entries IH]; [reflexivity|].
  cbn [flat_map fst snd]. now rewrite <- IH.
Qed.

Lemma lookup_app p : forall d sub q,
  lookup p d = Some (Dir sub) -> lookup (p ++ q) d = lookup q sub.
Proof.
  induction p as [|name p IH]; intros d sub q H; cbn [app lookup] in *.
  - now injection H as <-.
  - destruct (assoc name d) as [[c|s]|]; [|now apply IH|discriminate].
    destruct p; discriminate.
Qed.

Lemma tidy_lookup p : forall d n,
  tidy d -> lookup p d = Some n -> tidy_node n.
Proof.
  induction p as [|name p IH]; intros d n Ht H; cbn [lookup] in H.
  - now injection H as <-.
  - destruct (assoc name d) as [[c|s]|] eqn:Hassoc; [| |discriminate].
    + destruct p; [|discriminate]. now injection H as <-.
    + apply (IH s n); [|exact H].
      exact (tidy_assoc d name (Dir s) Ht Hassoc).
Qed.

(** Every triple of the walk of a tidy tree describes a directory of the
    tree: its root is the path of the directory and its two lists are the
    directories and the files found there. *)
Lemma walk_node_sound n :
  forall root entries,
    n = Dir entries -> tidy entries ->
    forall r ds fls,
      In (r, ds, fls) (walk_node root n) ->
      exists rel sub,
        components r = (components root ++ rel)%list
        /\ lookup rel entries = Some (Dir sub)
        /\ ds = dir_names sub /\ fls = file_names sub
        /\ (root <> "" -> r <> "").
Proof.
  induction n as [content|es IH] using node_entries_ind;
    intros root entries Heq Ht r ds fls Hin; [discriminate|].
  injection Heq as ->. rewrite walk_node_dir in Hin.
  destruct Hin as [[= <- <- <-]|Hin].
  - exists [], entries. rewrite app_nil_r. auto.
  - apply in_flat_map in Hin. destruct Hin as ([name child] & Hentry & Hin).
    cbn [fst snd] in Hin.
    destruct (tidy_in entries name child Ht Hentry) as (Hgood & Hchild & Hassoc).
    rewrite Forall_forall in IH. specialize (IH (name, child) Hentry).
    cbn [snd] in IH.
    destruct child as [content|sub_entries]; [contradiction|].
    destruct (IH (path_join root name) sub_entries eq_refl Hchild r ds fls Hin)
      as (rel & sub & Hr & Hlookup & Hds & Hfls & Hne).
    exists (name :: rel), sub.
    rewrite Hr, (components_path_join root name Hgood), <- app_assoc.
    cbn [app lookup]. rewrite Hassoc.
    repeat split; auto.
    intros _. apply Hne. now apply path_join_nonempty.
Qed.

Lemma walk_sound top d r ds fls :
  tidy d ->
  In (r, ds, fls) (walk top d) ->
  exists sub,
    resolve r d = Some (Dir sub)
    /\ ds = dir_names sub /\ fls = file_names sub.
Proof.
  unfold walk, resolve. intros Ht Hin.
  destruct (String.eqb_spec top "") as [->|Htop]; [contradiction|].
  destruct (lookup (components top) d) as [[content|entries]|] eqn:Hlookup;
    [contradiction| |contradiction].
  pose proof (tidy_lookup _ _ _ Ht Hlookup) as Hentries.
  destruct (walk_node_sound (Dir entries) top entries eq_refl Hentries
              r ds fls Hin)
    as (rel & sub & Hr & Hrel & Hds & Hfls & Hne).
  exists sub. split; [|auto].
  destruct (String.eqb_spec r "") as [->|_]; [now elim (Hne Htop)|].
  now rewrite Hr, (lookup_app _ _ _ rel Hlookup).
Qed.

Lemma in_assoc_some {A : Type} (k : string) (v : A) (d : list (string * A)) :
  In (k, v) d -> assoc k d <> None.
Proof.
  intros Hin. rewrite assoc_none_iff. intros H. apply H.
  apply in_map_iff. now exists (k, v).
Qed.

Lemma has_name_listed n sub :
  has_name n (file_names sub) = true -> assoc n sub <> None.
Proof.
  unfold has_name, file_names. intros H.
  apply existsb_exists in H. destruct H as (x & Hin & Heq).
  apply String.eqb_eq in Heq. subst x.
  apply in_map_iff in Hin. destruct Hin as ([k v] & Hk & Hin).
  cbn [fst] in Hk. subst k. apply filter_In in Hin.
  now apply in_assoc_some with v.
Qed.

Lemma lookup_last p : forall d name n,
  lookup (p ++ [name]) d = Some n ->
  exists sub, lookup p d = Some (Dir sub) /\ assoc name sub <> None.
Proof.
  induction p as [|k p IH]; intros d name n H; cbn [app lookup] in *.
  - exists d. split; [reflexivity|]. now destruct (assoc name d).
  - destruct (assoc k d) as [[c|s]|]; [|now apply IH with n|discriminate].
    destruct p; discriminate.
Qed.

(** X18: what [download_ffmpeg] returns can be used.  In a tidy file tree
    (names unique in each directory, none empty or with a slash), any
    directory the function returns exists afterwards and has an entry named
    [ffmpeg.exe] or [ffmpeg]; the tree is still tidy. *)
Theorem download_ffmpeg_returns_directory_with_binary
  (X : Externals) (folder root : string) (w w' : world) :
  folder <> "" ->
  tidy (fs w) ->
  download_ffmpeg X folder w = (Ok (Some root), w') ->
  tidy (fs w')
  /\ exists sub,
       resolve root (fs w') = Some (Dir sub)
       /\ (assoc "ffmpeg.exe" sub <> None \/ assoc "ffmpeg" sub <> None).
Proof.
  intros Hfolder Htidy.
  unfold download_ffmpeg, bind at 1, os_path_exists.
  destruct (path_exists (path_join folder "ffmpeg.exe") (fs w)) eqn:Hpresent.
  - unfold bind, print, emit, ret. intros [= <- <-]. cbn [fs].
    split; [exact Htidy|].
    unfold path_exists, resolve in Hpresent.
    destruct (String.eqb (path_join folder "ffmpeg.exe") "");
      [discriminate|].
    rewrite (components_path_join folder "ffmpeg.exe" eq_refl) in Hpresent.
    destruct (lookup (components folder ++ ["ffmpeg.exe"]) (fs w)) as [n|]
      eqn:Hlookup; [|discriminate].
    destruct (lookup_last _ _ _ _ Hlookup) as (sub & Hsub & Hentry).
    exists sub. unfold resolve.
    destruct (String.eqb_spec folder "") as [->|_]; [congruence|]. auto.
  - unfold bind at 1, print at 1, emit at 1. cbn [fs trace].
    unfold bind at 1, http_get. cbn [fs trace].
    destruct (requests_get X _ _) as [r|e]; [|discriminate].
    unfold bind at 1, open_write, bind at 1, emit at 1. cbn [fs trace].
    change (components ffmpeg_zip) with ["ffmpeg.zip"].
    destruct (write_file ["ffmpeg.zip"] (body r) (fs w)) as [d1|] eqn:Hwrite;
      [|destruct (resolve ffmpeg_zip (fs w)); discriminate].
    assert (Hd1 : tidy d1).
    { apply (write_file_tidy ["ffmpeg.zip"] (body r) (fs w) d1);
        [now repeat constructor|exact Htidy|exact Hwrite]. }
    unfold bind at 1, print at 1, emit at 1. cbn [fs trace].
    unfold bind at 1, zip_extractall, bind at 1, emit at 1. cbn [fs trace].
    destruct (resolve ffmpeg_zip d1) as [[content|?]|]; try discriminate.
    destruct (zip_members X content) as [ms|]; [|discriminate].
    pose proof (extract_members_tidy (components folder) ms d1
                  (components_are_good folder) Hd1) as Hd2.
    destruct (extract_members (components folder) ms d1) as [d2 ok].
    cbn [fst] in Hd2. destruct ok; [|discriminate].
    unfold bind at 1, os_remove, bind at 1, emit at 1. cbn [fs trace].
    change (components ffmpeg_zip) with ["ffmpeg.zip"].
    destruct (remove ["ffmpeg.zip"] d2) as [d3|] eqn:Hremove;
      [|destruct (resolve ffmpeg_zip d2); discriminate].
    assert (Hd3 : tidy d3).
    { apply (remove_tidy ["ffmpeg.zip"] d2 d3);
        [now repeat constructor|exact Hd2|exact Hremove]. }
    unfold bind at 1, os_walk. cbn [fs trace].
    destruct (find _ (walk folder d3)) as [[[root' ds] fls]|] eqn:Hfind.
    + unfold bind, print, emit, ret. intros [= <- <-]. cbn [fs].
      split; [exact Hd3|].
      apply find_some in Hfind. destruct Hfind as [Hin Hnames].
      cbn [snd] in Hnames.
      destruct (walk_sound folder d3 root' ds fls Hd3 Hin)
        as (sub & Hroot & _ & ->).
      exists sub. split; [exact Hroot|].
      apply orb_prop in Hnames.
      destruct Hnames as [H|H]; [left|right]; now apply has_name_listed.
    + unfold bind, print, emit, ret. discriminate.
Qed.

Lemma download_ffmpeg_returns_directory_with_binary_witness :
  exists sub,
    resolve "ffmpeg_bin/ffmpeg-master-latest-win64-lgpl/bin"
      (fs (snd (download_ffmpeg FakeRelease.release_server "ffmpeg_bin"
                  Fake.empty_world)))
    = Some (Dir sub)
    /\ (assoc "ffmpeg.exe" sub <> None \/ assoc "ffmpeg" sub <> None).
Proof.
  exact (proj2 (download_ffmpeg_returns_directory_with_binary
                  FakeRelease.release_server "ffmpeg_bin"
                  "ffmpeg_bin/ffmpeg-master-latest-win64-lgpl/bin"
                  Fake.empty_world
                  (snd (download_ffmpeg FakeRelease.release_server
                          "ffmpeg_bin" Fake.empty_world))
                  ltac:(discriminate) tidy_nil eq_refl)).
Defined.

Lemma assoc_in {A : Type} (k : string) (v : A) (d : list (string * A)) :
  assoc k d = Some v -> In (k, v) d.
Proof.
  induction d as [|[k' v'] d IH]; cbn [assoc]; [discriminate|].
  destruct (String.eqb_spec k k') as [->|_].
  - intros [= ->]. now left.
  - intros H. right. now apply IH.
Qed.

(** Every directory below the top of a walk has its triple in the walk. *)
Lemma walk_node_complete rel : forall root entries sub,
  lookup rel entries = Some (Dir sub) ->
  exists r, In (r, dir_names sub, file_names sub)
               (walk_node root (Dir entries)).
Proof.
  induction rel as [|name rel IH]; intros root entries sub H;
    rewrite walk_node_dir; cbn [lookup] in H.
  - injection H as <-. exists root. now left.
  - destruct (assoc name entries) as [[c|s]|] eqn:Hassoc; [| |discriminate].
    + destruct rel; discriminate.
    + destruct (IH (path_join root name) s sub H) as [r Hr].
      exists r. right. apply in_flat_map. exists (name, Dir s).
      split; [now apply assoc_in|exact Hr].
Qed.

Lemma lookup_through p : forall d q sub,
  lookup (p ++ q) d = Some (Dir sub) ->
  exists entries,
    lookup p d = Some (Dir entries) /\ lookup q entries = Some (Dir sub).
Proof.
  induction p as [|k p IH]; intros d q sub H; cbn [app lookup] in *.
  - now exists d.
  - destruct (assoc k d) as [[c|s]|]; [|now apply IH|discriminate].
    destruct (p ++ q)%list eqn:Hpq; [|discriminate].
    discriminate.
Qed.

(** X19: when [download_ffmpeg] returns [None], the binary is indeed
    nowhere to be found: after the extraction no directory at or below the
    folder lists a file named [ffmpeg.exe] or [ffmpeg]. *)
Theorem download_ffmpeg_none_means_absent
  (X : Externals) (folder : string) (w w' : world) :
  folder <> "" ->
  download_ffmpeg X folder w = (Ok None, w') ->
  forall rel sub,
    lookup (components folder ++ rel) (fs w') = Some (Dir sub) ->
    has_name "ffmpeg.exe" (file_names sub) = false
    /\ has_name "ffmpeg" (file_names sub) = false.
Proof.
  intros Hfolder.
  unfold download_ffmpeg, bind at 1, os_path_exists.
  destruct (path_exists (path_join folder "ffmpeg.exe") (fs w));
    [unfold bind, print, emit, ret; discriminate|].
  unfold bind at 1, print at 1, emit at 1. cbn [fs trace].
  unfold bind at 1, http_get. cbn [fs trace].
  destruct (requests_get X _ _) as [r|e]; [|discriminate].
  unfold bind at 1, open_write, bind at 1, emit at 1. cbn [fs trace].
  destruct (write_file _ (body r) (fs w)) as [d1|];
    [|destruct (resolve ffmpeg_zip (fs w)); discriminate].
  unfold bind at 1, print at 1, emit at 1. cbn [fs trace].
  unfold bind at 1, zip_extractall, bind at 1, emit at 1. cbn [fs trace].
  destruct (resolve ffmpeg_zip d1) as [[content|?]|]; try discriminate.
  destruct (zip_members X content) as [ms|]; [|discriminate].
  destruct (extract_members (components folder) ms d1) as [d2 ok].
  destruct ok; [|discriminate].
  unfold bind at 1, os_remove, bind at 1, emit at 1. cbn [fs trace].
  destruct (remove _ d2) as [d3|];
    [|destruct (resolve ffmpeg_zip d2); discriminate].
  unfold bind at 1, os_walk. cbn [fs trace].
  destruct (find _ (walk folder d3)) as [[[root' ds] fls]|] eqn:Hfind;
    [unfold bind, print, emit, ret; discriminate|].
  unfold bind, print, emit, ret. intros [= <-]. cbn [fs].
  intros rel sub Hlookup.
  destruct (lookup_through _ _ _ _ Hlookup) as (entries & Htop & Hrel).
  destruct (walk_node_complete rel folder entries sub Hrel) as [found Hr].
  assert (Hin : In (found, dir_names sub, file_names sub) (walk folder d3)).
  { unfold walk, resolve.
    destruct (String.eqb_spec folder "") as [->|_]; [congruence|].
    now rewrite Htop. }
  pose proof (find_none _ _ Hfind _ Hin) as Hnone. cbn [snd] in Hnone.
  now apply orb_false_elim in Hnone.
Qed.

Lemma download_ffmpeg_none_means_absent_witness :
  has_name "ffmpeg.exe" (file_names [("README.txt", File "nothing here")])
  = false
  /\ has_name "ffmpeg" (file_names [("README.txt", File "nothing here")])
     = false.
Proof.
  exact (download_ffmpeg_none_means_absent
           FakeRun.hollow "ffmpeg_bin" FakeRun.configured
           (snd (download_ffmpeg FakeRun.hollow "ffmpeg_bin"
                   FakeRun.configured))
           ltac:(discriminate) eq_refl []
           [("README.txt", File "nothing here")] eq_refl).
Defined.
